(** * Shallow embedding of the RS232 projector protocol engine

    Models [src/projector_control.py] ([ProjectorController]): the
    command framing and poll loop of [_send_command], the success test
    [_check_success], the setters and the query decoders; and the volume
    section of [ProjectorConfig.apply_config] in [src/projector_config.py].

    The serial port is a scripted transport: [rx] lists, poll by poll, the
    bytes that [in_waiting] reports at that poll; every side effect on the
    port is recorded in [trace]. Python exceptions are an explicit result. *)

From Stdlib Require Import Bool Arith ZArith List Lia String Ascii.
From Stdlib Require Import Strings.Byte Numbers.DecimalString Numbers.DecimalZ.
Import ListNotations.
Open Scope string_scope.
Open Scope nat_scope.

(** ** Python values used by the module *)

Definition bytes := list Byte.byte.

(** Exceptions that the modelled code can raise. *)
Inductive exn := IndexError | ValueError | UnicodeEncodeError.

(** Result of a Python computation: a value or a raised exception. *)
Inductive py (A : Type) := Ret (a : A) | Raise (e : exn).
Arguments Ret {A} a.
Arguments Raise {A} e.

Definition chr (n : nat) : string := String (ascii_of_nat n) EmptyString.

(** ["\r"] *)
Definition CR : string := chr 13.

(** [str(i)] for a Python int. *)
Definition py_str_int (z : Z) : string := NilEmpty.string_of_int (Z.to_int z).

(** [c.isspace()] restricted to ASCII, the only characters a decoded
    response can contain. *)
Definition is_ws (c : ascii) : bool :=
  let n := nat_of_ascii c in
  ((9 <=? n) && (n <=? 13)) || ((28 <=? n) && (n <=? 32)).

Fixpoint lstrip (s : string) : string :=
  match s with
  | String c r => if is_ws c then lstrip r else s
  | EmptyString => s
  end.

Definition rev_str (s : string) : string :=
  string_of_list_ascii (rev (list_ascii_of_string s)).

(** [s.strip()] *)
Definition strip (s : string) : string := rev_str (lstrip (rev_str (lstrip s))).

(** [s[n:]] *)
Definition py_drop (n : nat) (s : string) : string := substring n (length s - n) s.

(** [s[a:b]] for [a <= b] *)
Definition py_slice (s : string) (a b : nat) : string := substring a (b - a) s.

(** [s[i]] for [i >= 0]: raises [IndexError] out of range. *)
Definition py_index (s : string) (i : nat) : py string :=
  match get i s with
  | Some c => Ret (String c EmptyString)
  | None => Raise IndexError
  end.

(** [d.get(k, default)] on a dict literal with string keys. *)
Fixpoint dict_get (d : list (string * string)) (k default : string) : string :=
  match d with
  | [] => default
  | (k', v) :: d' => if String.eqb k k' then v else dict_get d' k default
  end.

Definition is_digit (c : ascii) : bool :=
  let n := nat_of_ascii c in (48 <=? n) && (n <=? 57).

Definition digit_val (c : ascii) : Z := Z.of_nat (nat_of_ascii c - 48).

(** Digits with single underscores between digits, as [int()] accepts. *)
Fixpoint digits_acc (s : string) (acc : Z) (prev_us : bool) : option Z :=
  match s with
  | EmptyString => if prev_us then None else Some acc
  | String c r =>
      if is_digit c then digits_acc r (acc * 10 + digit_val c) false
      else if (Ascii.eqb c "_"%char) && negb prev_us then digits_acc r acc true
      else None
  end.

Definition digits_val (s : string) : option Z :=
  match s with
  | String c _ => if is_digit c then digits_acc s 0 false else None
  | EmptyString => None
  end.

(** [int(s)] on an ASCII string: [None] is the [ValueError] case. *)
Definition py_int (s : string) : option Z :=
  match strip s with
  | String c r =>
      if Ascii.eqb c "-"%char then option_map Z.opp (digits_val r)
      else if Ascii.eqb c "+"%char then digits_val r
      else digits_val (String c r)
  | EmptyString => None
  end.

(** ** Bytes and the ASCII codec *)

Definition ascii_ok_char (c : ascii) : bool := nat_of_ascii c <? 128.

Fixpoint ascii_ok (s : string) : bool :=
  match s with
  | EmptyString => true
  | String c r => ascii_ok_char c && ascii_ok r
  end.

Fixpoint to_bytes (s : string) : bytes :=
  match s with
  | EmptyString => []
  | String c r => byte_of_ascii c :: to_bytes r
  end.

(** [s.encode('ascii')]: raises on a character outside ASCII. *)
Definition encode_ascii (s : string) : py bytes :=
  if ascii_ok s then Ret (to_bytes s) else Raise UnicodeEncodeError.

(** [b.decode('ascii', errors='ignore')] *)
Fixpoint decode_ascii_ignore (b : bytes) : string :=
  match b with
  | [] => EmptyString
  | x :: r =>
      if Byte.to_nat x <? 128 then String (ascii_of_byte x) (decode_ascii_ignore r)
      else decode_ascii_ignore r
  end.

Fixpoint bytes_prefix (p s : bytes) : bool :=
  match p, s with
  | [], _ => true
  | x :: p', y :: s' => Byte.eqb x y && bytes_prefix p' s'
  | _ :: _, [] => false
  end.

(** [p in s] for byte strings *)
Fixpoint bytes_contains (p s : bytes) : bool :=
  bytes_prefix p s ||
  match s with
  | [] => false
  | _ :: s' => bytes_contains p s'
  end.

(** [b'Ok' in response or b'P' in response or b'F' in response] *)
Definition has_marker (response : bytes) : bool :=
  bytes_contains (to_bytes "Ok") response ||
  bytes_contains (to_bytes "P") response ||
  bytes_contains (to_bytes "F") response.

(** ** The serial port and the controller state *)

(** Observable effects on the port, in program order. *)
Inductive event :=
| EOpen                  (* serial.Serial(...) *)
| ESetRTS | ESetDTR       (* setRTS(True), setDTR(True) *)
| ESleep (ms : nat)      (* time.sleep *)
| EResetIn | EResetOut   (* reset_input_buffer / reset_output_buffer *)
| EWrite (b : bytes)     (* ser.write *)
| EFlush                 (* ser.flush *)
| EPoll (n : nat)        (* ser.in_waiting, answering n *)
| ERead (b : bytes).     (* ser.read(n) *)

(** [ProjectorController] together with its port.  [is_open] is
    [self.ser and self.ser.is_open]; [open_ok] says whether opening the
    port succeeds; [rx] gives, poll by poll, the bytes waiting at that poll
    (an exhausted list means nothing arrives any more). *)
Record ctl := mkCtl {
  device_id : string;
  is_open : bool;
  open_ok : bool;
  rx : list bytes;
  trace : list event
}.

Definition log (ev : list event) (s : ctl) : ctl :=
  mkCtl (device_id s) (is_open s) (open_ok s) (rx s) (trace s ++ ev)%list.

Definition opened (s : ctl) : ctl :=
  mkCtl (device_id s) true (open_ok s) (rx s) (trace s).

(** State and exception monad of the controller methods. *)
Definition M (A : Type) := ctl -> py A * ctl.

Definition ret {A} (a : A) : M A := fun s => (Ret a, s).

Definition bind {A B} (m : M A) (k : A -> M B) : M B :=
  fun s => match m s with
           | (Ret a, s') => k a s'
           | (Raise e, s') => (Raise e, s')
           end.

Definition raise_py {A} (r : py A) : M A := fun s => (r, s).

Definition emit (ev : list event) : M unit := fun s => (Ret tt, log ev s).

Definition self_device_id : M string := fun s => (Ret (device_id s), s).

Notation "x <- m ;; k" := (bind m (fun x => k))
  (at level 61, m at next level, right associativity).
Notation "m ;;; k" := (bind m (fun _ => k))
  (at level 61, right associativity).

(** [connect]: the [SerialException] is caught and turned into [False]. *)
Definition connect : M bool :=
  fun s =>
    if is_open s then (Ret true, s)
    else if open_ok s then
      (Ret true, log [EOpen; ESetRTS; ESetDTR; ESleep 200] (opened s))
    else (Ret false, s).

(** The loop [for _ in range(n)] of [_send_command]: sleep 100 ms, poll
    [in_waiting], read what is waiting, stop once a marker is in the
    buffer.  Returns the buffer, the events and the rest of the script. *)
Fixpoint read_loop (n : nat) (src : list bytes) (response : bytes)
  : bytes * list event * list bytes :=
  match n with
  | O => (response, [], src)
  | S n' =>
      let '(chunk, src') :=
        match src with [] => ([], []) | c :: r => (c, r) end in
      if 0 <? List.length chunk then
        let response' := (response ++ chunk)%list in
        if has_marker response' then
          (response', [ESleep 100; EPoll (List.length chunk); ERead chunk], src')
        else
          let '(r, ev, rest) := read_loop n' src' response' in
          (r, ESleep 100 :: EPoll (List.length chunk) :: ERead chunk :: ev, rest)
      else
        let '(r, ev, rest) := read_loop n' src' response in
        (r, ESleep 100 :: EPoll 0 :: ev, rest)
  end.

Definition read_response : M bytes :=
  fun s =>
    let '(r, ev, rest) := read_loop 10 (rx s) [] in
    (Ret r, mkCtl (device_id s) (is_open s) (open_ok s) rest (trace s ++ ev)%list).

(** The frame [f"~{self.device_id}{command}\r"]. *)
Definition frame (device : string) (command : string) : string :=
  "~" ++ device ++ command ++ CR.

(** [_send_command] *)
Definition _send_command (command : string) : M string :=
  ok <- connect ;;
  if negb ok then ret "" else
  emit [EResetIn; EResetOut] ;;;
  dev <- self_device_id ;;
  cmd_full <- raise_py (encode_ascii (frame dev command)) ;;
  emit [EWrite cmd_full; EFlush] ;;;
  response <- read_response ;;
  ret (strip (decode_ascii_ignore response)).

(** [_check_success] *)
Definition _check_success (response : string) : bool :=
  String.eqb response "P" || String.prefix "Ok" response.

(** ** Setters *)

(** The setters of [ProjectorController] that send a fixed command and
    return [self._check_success(response)]. *)
Module Setter.

Inductive t :=
| power_on
| power_off
| av_mute_on
| av_mute_off
| audio_mute_on
| audio_mute_off
| freeze_on
| freeze_off
| set_source_hdmi
| set_source_usb
| set_source_sd_card
| set_source_android_home
| set_projection_front_desktop
| set_projection_rear_desktop
| set_projection_front_ceiling
| set_projection_rear_ceiling
| set_display_mode_presentation
| set_display_mode_bright
| set_display_mode_cinema
| set_display_mode_srgb
| set_display_mode_photo
| set_display_mode_eco
| set_display_mode_3d
| set_display_mode_game
| set_display_mode_hdr
| set_display_mode_hlg
| set_display_mode_ai_pq
| set_display_mode_wcg
| set_color_temp_standard
| set_color_temp_cold
| set_color_temp_warm
| set_aspect_4_3
| set_aspect_16_9
| set_aspect_16_10
| set_aspect_auto
| set_auto_keystone_on
| set_auto_keystone_off
| volume_up
| volume_down
| remote_menu
| remote_up
| remote_down
| remote_left
| remote_right
| remote_enter
| set_digital_signage_on
| set_digital_signage_off
| factory_reset
| reset_osd_settings
.

(** The command string each one passes to [_send_command]. *)
Definition command (o : t) : string :=
  match o with
  | power_on => "00 1"
  | power_off => "00 0"
  | av_mute_on => "02 1"
  | av_mute_off => "02 0"
  | audio_mute_on => "03 1"
  | audio_mute_off => "03 0"
  | freeze_on => "04 1"
  | freeze_off => "04 0"
  | set_source_hdmi => "12 1"
  | set_source_usb => "12 17"
  | set_source_sd_card => "12 31"
  | set_source_android_home => "12 24"
  | set_projection_front_desktop => "71 1"
  | set_projection_rear_desktop => "71 2"
  | set_projection_front_ceiling => "71 3"
  | set_projection_rear_ceiling => "71 4"
  | set_display_mode_presentation => "20 1"
  | set_display_mode_bright => "20 2"
  | set_display_mode_cinema => "20 3"
  | set_display_mode_srgb => "20 4"
  | set_display_mode_photo => "20 16"
  | set_display_mode_eco => "20 44"
  | set_display_mode_3d => "20 9"
  | set_display_mode_game => "20 12"
  | set_display_mode_hdr => "20 21"
  | set_display_mode_hlg => "20 25"
  | set_display_mode_ai_pq => "20 41"
  | set_display_mode_wcg => "20 42"
  | set_color_temp_standard => "36 1"
  | set_color_temp_cold => "36 3"
  | set_color_temp_warm => "36 4"
  | set_aspect_4_3 => "60 1"
  | set_aspect_16_9 => "60 2"
  | set_aspect_16_10 => "60 3"
  | set_aspect_auto => "60 7"
  | set_auto_keystone_on => "69 1"
  | set_auto_keystone_off => "69 0"
  | volume_up => "140 18"
  | volume_down => "140 17"
  | remote_menu => "140 20"
  | remote_up => "140 10"
  | remote_down => "140 14"
  | remote_left => "140 11"
  | remote_right => "140 13"
  | remote_enter => "140 12"
  | set_digital_signage_on => "569 2"
  | set_digital_signage_off => "569 1"
  | factory_reset => "112 1"
  | reset_osd_settings => "546 1"
  end.

End Setter.

(** A fixed-command setter: [response = self._send_command(...)] then
    [return self._check_success(response)]. *)
Definition run_setter (o : Setter.t) : M bool :=
  response <- _send_command (Setter.command o) ;;
  ret (_check_success response).

Definition volume_up : M bool := run_setter Setter.volume_up.
Definition volume_down : M bool := run_setter Setter.volume_down.

(** [set_brightness] *)
Definition set_brightness (value : Z) : M bool :=
  if negb ((0 <=? value)%Z && (value <=? 10)%Z) then ret false else
  response <- _send_command ("21 " ++ py_str_int value) ;;
  ret (_check_success response).

(** [set_contrast] *)
Definition set_contrast (value : Z) : M bool :=
  if negb ((0 <=? value)%Z && (value <=? 10)%Z) then ret false else
  response <- _send_command ("22 " ++ py_str_int value) ;;
  ret (_check_success response).

(** [set_digital_zoom]; [set_digital_zoom_50] ... [set_digital_zoom_200]
    are [set_digital_zoom 0] ... [set_digital_zoom 6]. *)
Definition set_digital_zoom (level : Z) : M bool :=
  if negb ((0 <=? level)%Z && (level <=? 6)%Z) then ret false else
  response <- _send_command ("62 " ++ py_str_int level) ;;
  ret (_check_success response).

(** [set_language]: no range check. *)
Definition set_language (lang_code : Z) : M bool :=
  response <- _send_command ("70 " ++ py_str_int lang_code) ;;
  ret (_check_success response).

(** ** Queries

    Each query sends a fixed command and decodes the response string; the
    decoding step of method [get_x] is [get_x_dec]. *)

Definition query {A} (command : string) (dec : string -> py A) : M A :=
  response <- _send_command command ;;
  raise_py (dec response).

(** [if response == 'Ok0': return False elif response == 'Ok1': return True
    return None] (power state, AV mute, audio mute, network, signal,
    signage). *)
Definition bool_state_dec (response : string) : py (option bool) :=
  if String.eqb response "Ok0" then Ret (Some false)
  else if String.eqb response "Ok1" then Ret (Some true)
  else Ret None.

(** [if response.startswith('Ok'): try: return int(response[2:])
    except: pass; return None] (brightness, contrast, keystone, volume,
    lamp hours, system hours, temperature, one fan). *)
Definition int_dec (response : string) : py (option Z) :=
  if String.prefix "Ok" response then Ret (py_int (py_drop 2 response))
  else Ret None.

(** [if response.startswith('Ok'): return response[2:]; return None]
    (DDP and Android versions, MAC address, device id, resolution,
    refresh rate). *)
Definition text_dec (response : string) : py (option string) :=
  if String.prefix "Ok" response then Ret (Some (py_drop 2 response))
  else Ret None.

Definition unknown_label (code : string) : string := "Unknown (" ++ code ++ ")".

Definition get_input_source_dec (response : string) : py (option string) :=
  if String.prefix "Ok" response then
    let code := py_drop 2 response in
    let source_map := [("7", "HDMI 1"); ("20", "Android Home (USB-A/SD Card)")] in
    Ret (Some (dict_get source_map code (unknown_label code)))
  else Ret None.

Definition get_projection_mode_dec (response : string) : py (option string) :=
  if String.prefix "Ok" response then
    let mode_map := [("0", "Front-Desktop"); ("1", "Rear-Desktop");
                     ("2", "Front-Ceiling"); ("3", "Rear-Ceiling")] in
    match py_index response 2 with
    | Ret c => Ret (Some (dict_get mode_map c "Unknown"))
    | Raise e => Raise e
    end
  else Ret None.

Definition get_display_mode_dec (response : string) : py (option string) :=
  if String.prefix "Ok" response then
    let mode_map := [("1", "Presentation (PC)"); ("2", "Bright"); ("3", "Cinema");
                     ("4", "sRGB"); ("9", "3D"); ("12", "Game");
                     ("14", "Photo (Vivid)"); ("21", "HDR"); ("25", "HLG");
                     ("41", "AI-PQ"); ("42", "WCG"); ("43", "Eco")] in
    let code := py_drop 2 response in
    Ret (Some (dict_get mode_map code (unknown_label code)))
  else Ret None.

Definition get_color_temperature_dec (response : string) : py (option string) :=
  if String.prefix "Ok" response then
    let temp_map := [("2", "Standard (D75)"); ("3", "Warm (D65)"); ("5", "Cold (D83)")] in
    match py_index response 2 with
    | Ret c => Ret (Some (dict_get temp_map c "Unknown"))
    | Raise e => Raise e
    end
  else Ret None.

Definition get_aspect_ratio_dec (response : string) : py (option string) :=
  if String.prefix "Ok" response then
    let ratio_map := [("1", "4:3"); ("2", "16:9"); ("3", "16:10"); ("7", "Auto")] in
    Ret (Some (dict_get ratio_map (py_drop 2 response) "Unknown"))
  else Ret None.

Definition get_digital_zoom_dec (response : string) : py (option string) :=
  if String.prefix "Ok" response then
    let zoom_map := [("0", "50%"); ("1", "75%"); ("2", "100%"); ("3", "125%");
                     ("4", "150%"); ("5", "175%"); ("6", "200%")] in
    match py_index response 2 with
    | Ret c => Ret (Some (dict_get zoom_map c "Unknown"))
    | Raise e => Raise e
    end
  else Ret None.

(** *** [get_system_info] *)

(** The dict built by [get_system_info] once it is non-empty; the key
    ['picture_mode'] is present only for a payload of 14 characters or
    more.  [None] stands for the empty dict [{}]. *)
Record sysinfo := mkSysinfo {
  si_power : string;
  si_lamp_hours : Z;
  si_input_source : string;
  si_firmware : string;
  si_picture_mode : option string
}.

Definition get_system_info_dec (response : string) : py (option sysinfo) :=
  if String.prefix "Ok" response && (15 <=? String.length response) then
    let data := py_drop 2 response in
    match py_index data 0 with
    | Raise e => Raise e
    | Ret d0 =>
      let power := if String.eqb d0 "1" then "On" else "Off" in
      match py_int (py_slice data 1 6) with
      | None => Raise ValueError
      | Some lamp_hours =>
        let source_code := py_slice data 6 8 in
        let source_map := [("07", "HDMI 1"); ("20", "Android Home (USB-A/SD Card)")] in
        let input_source := dict_get source_map source_code (unknown_label source_code) in
        let firmware := py_slice data 8 12 in
        let picture_mode :=
          if 14 <=? String.length data then
            let mode_code := py_slice data 12 14 in
            let mode_map := [("01", "Presentation (PC)"); ("02", "Bright");
                             ("03", "Cinema"); ("04", "sRGB");
                             ("14", "Photo (Vivid)"); ("28", "Eco")] in
            Some (dict_get mode_map mode_code (unknown_label mode_code))
          else None in
        Ret (Some (mkSysinfo power lamp_hours input_source firmware picture_mode))
      end
    end
  else Ret None.

(** *** [get_software_version] *)

(** [s.replace(c, rep)] for a one-character [c]. *)
Fixpoint str_replace (c : ascii) (rep s : string) : string :=
  match s with
  | EmptyString => EmptyString
  | String x r =>
      if Ascii.eqb x c then rep ++ str_replace c rep r
      else String x (str_replace c rep r)
  end.

(** [c in s] for a one-character [c]. *)
Fixpoint str_has (c : ascii) (s : string) : bool :=
  match s with
  | EmptyString => false
  | String x r => Ascii.eqb x c || str_has c r
  end.

Definition cons_token (tok : string) (toks : list string) : list string :=
  if String.eqb tok "" then toks else tok :: toks.

Fixpoint split_go (s : string) : string * list string :=
  match s with
  | EmptyString => ("", [])
  | String c r =>
      let '(tok, toks) := split_go r in
      if is_ws c then ("", cons_token tok toks) else (String c tok, toks)
  end.

(** [s.split()] *)
Definition split_ws (s : string) : list string :=
  let '(tok, toks) := split_go s in cons_token tok toks.

(** [d[k] = v] on a dict kept in insertion order. *)
Fixpoint dict_set (d : list (string * string)) (k v : string) : list (string * string) :=
  match d with
  | [] => [(k, v)]
  | (k', v') :: d' => if String.eqb k k' then (k', v) :: d' else (k', v') :: dict_set d' k v
  end.

Definition version_key (part : string) : option string :=
  if String.prefix "C" part then Some "DDP"
  else if String.prefix "M" part then Some "MCU"
  else if String.prefix "R" part then Some "Android"
  else if String.prefix "L" part then Some "LAN"
  else if String.prefix "H" part then Some "HDBaseT"
  else if String.prefix "S" part then Some "System"
  else None.

Definition get_software_version_dec (response : string) : py (list (string * string)) :=
  if String.prefix "Ok" response then
    let data := py_drop 2 response in
    if str_has "C"%char data && str_has "M"%char data then
      let parts := split_ws
        (str_replace "X"%char " X" (str_replace "S"%char " S"
        (str_replace "H"%char " H" (str_replace "L"%char " L"
        (str_replace "M"%char " M" (str_replace "R"%char "R " data)))))) in
      Ret (fold_left (fun versions part =>
             match version_key part with
             | Some k => dict_set versions k (py_drop 1 part)
             | None => versions
             end) parts [])
    else Ret []
  else Ret [].

(** *** The query methods *)

Definition get_power_state := query "124 1" bool_state_dec.
Definition get_av_mute_state := query "355 1" bool_state_dec.
Definition get_audio_mute_state := query "356 1" bool_state_dec.
Definition get_input_source := query "121 1" get_input_source_dec.
Definition get_projection_mode := query "129 1" get_projection_mode_dec.
Definition get_display_mode := query "123 1" get_display_mode_dec.
Definition get_brightness := query "125 1" int_dec.
Definition get_contrast := query "126 1" int_dec.
Definition get_color_temperature := query "128 1" get_color_temperature_dec.
Definition get_aspect_ratio := query "127 1" get_aspect_ratio_dec.
Definition get_v_keystone := query "543 3" int_dec.
Definition get_digital_zoom := query "543 9" get_digital_zoom_dec.
Definition get_volume := query "120 1" int_dec.
Definition get_system_info := query "150 1" get_system_info_dec.
Definition get_software_version := query "122 1" get_software_version_dec.
Definition get_ddp_software_version := query "357 3" text_dec.
Definition get_android_software_version := query "357 4" text_dec.
Definition get_lamp_hours := query "108 1" int_dec.
Definition get_system_hours := query "150 21" int_dec.
Definition get_temperature := query "352 1" int_dec.
Definition get_mac_address := query "555 2" text_dec.
Definition get_device_id := query "558 1" text_dec.
Definition get_network_status := query "451 1" bool_state_dec.
Definition get_signal_status := query "150 23" bool_state_dec.
Definition get_resolution := query "150 4" text_dec.
Definition get_refresh_rate := query "150 19" text_dec.
Definition get_digital_signage_status := query "568 1" bool_state_dec.

(** [get_fan_speeds]: one exchange per fan, in order. *)
Definition get_fan_speeds : M (list (string * option Z)) :=
  f0 <- query "351 0" int_dec ;;
  f1 <- query "351 1" int_dec ;;
  f2 <- query "351 2" int_dec ;;
  ret [("System Fan 1", f0); ("System Fan 2", f1); ("Optical Fan", f2)].

(** The single-exchange query methods above, as one enumeration. *)
Module Getter.

Inductive t :=
| get_power_state
| get_av_mute_state
| get_audio_mute_state
| get_input_source
| get_projection_mode
| get_display_mode
| get_brightness
| get_contrast
| get_color_temperature
| get_aspect_ratio
| get_v_keystone
| get_digital_zoom
| get_volume
| get_system_info
| get_software_version
| get_ddp_software_version
| get_android_software_version
| get_lamp_hours
| get_system_hours
| get_temperature
| get_mac_address
| get_device_id
| get_network_status
| get_signal_status
| get_resolution
| get_refresh_rate
| get_digital_signage_status.

Definition command (g : t) : string :=
  match g with
  | get_power_state => "124 1"
  | get_av_mute_state => "355 1"
  | get_audio_mute_state => "356 1"
  | get_input_source => "121 1"
  | get_projection_mode => "129 1"
  | get_display_mode => "123 1"
  | get_brightness => "125 1"
  | get_contrast => "126 1"
  | get_color_temperature => "128 1"
  | get_aspect_ratio => "127 1"
  | get_v_keystone => "543 3"
  | get_digital_zoom => "543 9"
  | get_volume => "120 1"
  | get_system_info => "150 1"
  | get_software_version => "122 1"
  | get_ddp_software_version => "357 3"
  | get_android_software_version => "357 4"
  | get_lamp_hours => "108 1"
  | get_system_hours => "150 21"
  | get_temperature => "352 1"
  | get_mac_address => "555 2"
  | get_device_id => "558 1"
  | get_network_status => "451 1"
  | get_signal_status => "150 23"
  | get_resolution => "150 4"
  | get_refresh_rate => "150 19"
  | get_digital_signage_status => "568 1"
  end.

End Getter.

(** A query method run for its effect on the controller, its result dropped. *)
Definition run_getter (g : Getter.t) : M unit :=
  match g with
  | Getter.get_power_state => get_power_state ;;; ret tt
  | Getter.get_av_mute_state => get_av_mute_state ;;; ret tt
  | Getter.get_audio_mute_state => get_audio_mute_state ;;; ret tt
  | Getter.get_input_source => get_input_source ;;; ret tt
  | Getter.get_projection_mode => get_projection_mode ;;; ret tt
  | Getter.get_display_mode => get_display_mode ;;; ret tt
  | Getter.get_brightness => get_brightness ;;; ret tt
  | Getter.get_contrast => get_contrast ;;; ret tt
  | Getter.get_color_temperature => get_color_temperature ;;; ret tt
  | Getter.get_aspect_ratio => get_aspect_ratio ;;; ret tt
  | Getter.get_v_keystone => get_v_keystone ;;; ret tt
  | Getter.get_digital_zoom => get_digital_zoom ;;; ret tt
  | Getter.get_volume => get_volume ;;; ret tt
  | Getter.get_system_info => get_system_info ;;; ret tt
  | Getter.get_software_version => get_software_version ;;; ret tt
  | Getter.get_ddp_software_version => get_ddp_software_version ;;; ret tt
  | Getter.get_android_software_version => get_android_software_version ;;; ret tt
  | Getter.get_lamp_hours => get_lamp_hours ;;; ret tt
  | Getter.get_system_hours => get_system_hours ;;; ret tt
  | Getter.get_temperature => get_temperature ;;; ret tt
  | Getter.get_mac_address => get_mac_address ;;; ret tt
  | Getter.get_device_id => get_device_id ;;; ret tt
  | Getter.get_network_status => get_network_status ;;; ret tt
  | Getter.get_signal_status => get_signal_status ;;; ret tt
  | Getter.get_resolution => get_resolution ;;; ret tt
  | Getter.get_refresh_rate => get_refresh_rate ;;; ret tt
  | Getter.get_digital_signage_status => get_digital_signage_status ;;; ret tt
  end.

(** ** Restoring the volume: [ProjectorConfig.apply_config]

    The section [if 'volume' in audio and audio['volume'] is not None] of
    [apply_config], for an integer [target].  [results] holds the lists
    [results['success']] and [results['failed']]. *)

Definition results := (list string * list string)%type.

(** [for _ in range(n): step()], the step's result discarded. *)
Fixpoint repeat_steps (n : nat) (step : M bool) : M unit :=
  match n with
  | O => ret tt
  | S n' => step ;;; repeat_steps n' step
  end.

(** [f'audio.volume={target}'] *)
Definition volume_item (target : Z) : string := "audio.volume=" ++ py_str_int target.

Definition apply_volume (target : Z) (res : results) : M results :=
  current <- get_volume ;;
  match current with
  | None => ret res
  | Some current =>
      if (current <? target)%Z then
        repeat_steps (Z.to_nat (target - current)) volume_up ;;;
        ret (app (fst res) [volume_item target], snd res)
      else if (target <? current)%Z then
        repeat_steps (Z.to_nat (current - target)) volume_down ;;;
        ret (app (fst res) [volume_item target], snd res)
      else
        ret (app (fst res) [volume_item target ++ " (unchanged)"], snd res)
  end.

(** ** The whole of [ProjectorConfig.apply_config]

    [apply_config] reads a configuration dict, typically the one
    [capture_config] built, saved and loaded back as JSON or YAML.  The
    embedding covers configurations whose entries have the types
    [capture_config] stores (sections are dicts; a state is a bool, a
    label a string, a level an int, each possibly [None]) and whose strings
    have code points below 256. *)

(** [needle in haystack] for strings. *)
Fixpoint str_contains (needle s : string) : bool :=
  String.prefix needle s ||
  match s with
  | EmptyString => false
  | String _ r => str_contains needle r
  end.

(** [c.lower()] for a code point below 256. *)
Definition py_lower_char (c : ascii) : ascii :=
  let n := nat_of_ascii c in
  if ((65 <=? n) && (n <=? 90)) || ((192 <=? n) && (n <=? 214)) || ((216 <=? n) && (n <=? 222))
  then ascii_of_nat (n + 32) else c.

(** [s.lower()] *)
Fixpoint py_lower (s : string) : string :=
  match s with
  | EmptyString => EmptyString
  | String c r => String (py_lower_char c) (py_lower r)
  end.

(** [str(v)] (and [f'{v}']) for a string or [None]. *)
Definition py_str_opt (v : option string) : string :=
  match v with Some s => s | None => "None" end.

(** An entry of the configuration: [None] when the key, or the section that
    holds it, is absent; [Some None] when its value is [None]. *)
Record config := mkConfig {
  cfg_power_state : option (option bool);          (* config['power']['state'] *)
  cfg_source_input : option (option string);       (* config['source']['input'] *)
  cfg_display_mode : option (option string);       (* config['display']['mode'] *)
  cfg_projection_mode : option (option string);    (* config['display']['projection_mode'] *)
  cfg_aspect_ratio : option (option string);       (* config['display']['aspect_ratio'] *)
  cfg_digital_zoom : option (option string);       (* config['display']['digital_zoom'] *)
  cfg_brightness : option (option Z);              (* config['image']['brightness'] *)
  cfg_contrast : option (option Z);                (* config['image']['contrast'] *)
  cfg_color_temperature : option (option string);  (* config['image']['color_temperature'] *)
  cfg_volume : option (option Z);                  (* config['audio']['volume'] *)
  cfg_audio_mute : option (option bool);           (* config['audio']['audio_mute'] *)
  cfg_av_mute : option (option bool)               (* config['audio']['av_mute'] *)
}.

(** The dict [results] of [apply_config]. *)
Record report := mkReport {
  success : list string;
  failed : list string;
  skipped : list string
}.

(** [results['success' if ok else 'failed'].append(item)] *)
Definition note (ok : bool) (item : string) (r : report) : report :=
  if ok then mkReport (app (success r) [item]) (failed r) (skipped r)
  else mkReport (success r) (app (failed r) [item]) (skipped r).

(** [if action(): success.append(item) else: failed.append(item)] *)
Definition attempt (action : M bool) (item : string) (r : report) : M report :=
  ok <- action ;;
  ret (note ok item r).

(** An [if ... elif ...] chain of substring tests: the first row with a
    key contained in the value names the setter called. *)
Fixpoint dispatch (table : list (list string * Setter.t)) (value : string) : option Setter.t :=
  match table with
  | [] => None
  | (keys, o) :: rest =>
      if existsb (fun k => str_contains k value) keys then Some o else dispatch rest value
  end.

(** [success = False] followed by the chain. *)
Definition run_dispatch (table : list (list string * Setter.t)) (value : string) : M bool :=
  match dispatch table value with
  | Some o => run_setter o
  | None => ret false
  end.

Definition source_table : list (list string * Setter.t) :=
  [(["HDMI"], Setter.set_source_hdmi);
   (["USB"], Setter.set_source_usb);
   (["SD"], Setter.set_source_sd_card);
   (["Android"; "Home"], Setter.set_source_android_home)].

(** Tested against [str(mode).lower()]. *)
Definition display_table : list (list string * Setter.t) :=
  [(["presentation"; "pc"], Setter.set_display_mode_presentation);
   (["bright"], Setter.set_display_mode_bright);
   (["cinema"], Setter.set_display_mode_cinema);
   (["srgb"], Setter.set_display_mode_srgb);
   (["3d"], Setter.set_display_mode_3d);
   (["game"], Setter.set_display_mode_game);
   (["hdr"], Setter.set_display_mode_hdr);
   (["hlg"], Setter.set_display_mode_hlg);
   (["ai-pq"; "aipq"], Setter.set_display_mode_ai_pq);
   (["wcg"], Setter.set_display_mode_wcg);
   (["photo"; "vivid"], Setter.set_display_mode_photo);
   (["eco"], Setter.set_display_mode_eco)].

Definition projection_table : list (list string * Setter.t) :=
  [(["Front-Desktop"], Setter.set_projection_front_desktop);
   (["Rear-Desktop"], Setter.set_projection_rear_desktop);
   (["Front-Ceiling"], Setter.set_projection_front_ceiling);
   (["Rear-Ceiling"], Setter.set_projection_rear_ceiling)].

Definition aspect_table : list (list string * Setter.t) :=
  [(["4:3"], Setter.set_aspect_4_3);
   (["16:9"], Setter.set_aspect_16_9);
   (["16:10"], Setter.set_aspect_16_10);
   (["Auto"], Setter.set_aspect_auto)].

Definition color_table : list (list string * Setter.t) :=
  [(["Standard"], Setter.set_color_temp_standard);
   (["Cold"], Setter.set_color_temp_cold);
   (["Warm"], Setter.set_color_temp_warm)].

(** [zoom_map[zoom]] when [zoom in zoom_map]. *)
Fixpoint zoom_lookup (m : list (string * Z)) (zoom : string) : option Z :=
  match m with
  | [] => None
  | (k, v) :: m' => if String.eqb zoom k then Some v else zoom_lookup m' zoom
  end.

Definition zoom_map : list (string * Z) :=
  [("50%", 0%Z); ("75%", 1%Z); ("100%", 2%Z); ("125%", 3%Z);
   ("150%", 4%Z); ("175%", 5%Z); ("200%", 6%Z)].

(** Power: [if skip_power: skipped.append('power.state') else: ...] *)
Definition apply_power (skip_power : bool) (cfg : config) (r : report) : M report :=
  if skip_power then ret (mkReport (success r) (failed r) (app (skipped r) ["power.state"]))
  else match cfg_power_state cfg with
       | Some (Some true) => attempt (run_setter Setter.power_on) "power.state=on" r
       | Some (Some false) => attempt (run_setter Setter.power_off) "power.state=off" r
       | _ => ret r
       end.

(** Source: no truthiness test, [str(source)] is matched. *)
Definition apply_source (cfg : config) (r : report) : M report :=
  match cfg_source_input cfg with
  | Some v =>
      let source := py_str_opt v in
      attempt (run_dispatch source_table source) ("source.input=" ++ source) r
  | None => ret r
  end.

Definition apply_display_mode (cfg : config) (r : report) : M report :=
  match cfg_display_mode cfg with
  | Some (Some mode) =>
      if String.eqb mode "" then ret r
      else attempt (run_dispatch display_table (py_lower mode)) ("display.mode=" ++ mode) r
  | _ => ret r
  end.

Definition apply_projection_mode (cfg : config) (r : report) : M report :=
  match cfg_projection_mode cfg with
  | Some (Some proj_mode) =>
      if String.eqb proj_mode "" then ret r
      else attempt (run_dispatch projection_table proj_mode)
             ("display.projection_mode=" ++ proj_mode) r
  | _ => ret r
  end.

Definition apply_aspect_ratio (cfg : config) (r : report) : M report :=
  match cfg_aspect_ratio cfg with
  | Some (Some aspect) =>
      if String.eqb aspect "" then ret r
      else attempt (run_dispatch aspect_table aspect) ("display.aspect_ratio=" ++ aspect) r
  | _ => ret r
  end.

(** Digital zoom: a label outside [zoom_map] is recorded nowhere. *)
Definition apply_digital_zoom (cfg : config) (r : report) : M report :=
  match cfg_digital_zoom cfg with
  | Some (Some zoom) =>
      if String.eqb zoom "" then ret r
      else match zoom_lookup zoom_map zoom with
           | Some level => attempt (set_digital_zoom level) ("display.digital_zoom=" ++ zoom) r
           | None => ret r
           end
  | _ => ret r
  end.

Definition apply_brightness (cfg : config) (r : report) : M report :=
  match cfg_brightness cfg with
  | Some (Some v) => attempt (set_brightness v) ("image.brightness=" ++ py_str_int v) r
  | _ => ret r
  end.

Definition apply_contrast (cfg : config) (r : report) : M report :=
  match cfg_contrast cfg with
  | Some (Some v) => attempt (set_contrast v) ("image.contrast=" ++ py_str_int v) r
  | _ => ret r
  end.

Definition apply_color_temperature (cfg : config) (r : report) : M report :=
  match cfg_color_temperature cfg with
  | Some (Some color_temp) =>
      if String.eqb color_temp "" then ret r
      else attempt (run_dispatch color_table color_temp)
             ("image.color_temperature=" ++ color_temp) r
  | _ => ret r
  end.

Definition apply_volume_entry (cfg : config) (r : report) : M report :=
  match cfg_volume cfg with
  | Some (Some target) =>
      res <- apply_volume target (success r, failed r) ;;
      ret (mkReport (fst res) (snd res) (skipped r))
  | _ => ret r
  end.

Definition apply_audio_mute (cfg : config) (r : report) : M report :=
  match cfg_audio_mute cfg with
  | Some (Some true) => attempt (run_setter Setter.audio_mute_on) "audio.audio_mute=on" r
  | Some (Some false) => attempt (run_setter Setter.audio_mute_off) "audio.audio_mute=off" r
  | _ => ret r
  end.

Definition apply_av_mute (cfg : config) (r : report) : M report :=
  match cfg_av_mute cfg with
  | Some (Some true) => attempt (run_setter Setter.av_mute_on) "audio.av_mute=on" r
  | Some (Some false) => attempt (run_setter Setter.av_mute_off) "audio.av_mute=off" r
  | _ => ret r
  end.

(** The sections after the power one, in source order. *)
Definition sections : list (config -> report -> M report) :=
  [apply_source; apply_display_mode; apply_projection_mode; apply_aspect_ratio;
   apply_digital_zoom; apply_brightness; apply_contrast; apply_color_temperature;
   apply_volume_entry; apply_audio_mute; apply_av_mute].

Fixpoint run_sections (secs : list (config -> report -> M report)) (cfg : config)
    (r : report) : M report :=
  match secs with
  | [] => ret r
  | sec :: rest => r' <- sec cfg r ;; run_sections rest cfg r'
  end.

(** [apply_config(config, skip_power)] *)
Definition apply_config (skip_power : bool) (cfg : config) : M report :=
  r <- apply_power skip_power cfg (mkReport [] [] []) ;;
  run_sections sections cfg r.

(** ** [ProjectorConfig.capture_config]

    [captured_at] is [datetime.now().isoformat()], taken as a parameter. *)
Record captured := mkCaptured {
  cap_captured_at : string;
  cap_device_id : option string;
  cap_mac_address : option string;
  cap_power_state : option bool;
  cap_source_input : option string;
  cap_display_mode : option string;
  cap_projection_mode : option string;
  cap_aspect_ratio : option string;
  cap_digital_zoom : option string;
  cap_brightness : option Z;
  cap_contrast : option Z;
  cap_color_temperature : option string;
  cap_volume : option Z;
  cap_audio_mute : option bool;
  cap_av_mute : option bool;
  cap_v_keystone : option Z;
  cap_software_versions : list (string * string);
  cap_lamp_hours : option Z;
  cap_system_hours : option Z;
  cap_temperature : option Z;
  cap_fan_speeds : list (string * option Z);
  cap_network_status : option bool;
  cap_digital_signage : option bool
}.

Definition capture_config (captured_at : string) : M captured :=
  device <- get_device_id ;;
  mac <- get_mac_address ;;
  power <- get_power_state ;;
  input <- get_input_source ;;
  mode <- get_display_mode ;;
  proj_mode <- get_projection_mode ;;
  aspect <- get_aspect_ratio ;;
  zoom <- get_digital_zoom ;;
  bright <- get_brightness ;;
  contr <- get_contrast ;;
  ctemp <- get_color_temperature ;;
  vol <- get_volume ;;
  amute <- get_audio_mute_state ;;
  avmute <- get_av_mute_state ;;
  vkey <- get_v_keystone ;;
  sw <- get_software_version ;;
  lamp <- get_lamp_hours ;;
  sysh <- get_system_hours ;;
  temp <- get_temperature ;;
  fans <- get_fan_speeds ;;
  net <- get_network_status ;;
  signage <- get_digital_signage_status ;;
  ret (mkCaptured captured_at device mac power input mode proj_mode aspect zoom
         bright contr ctemp vol amute avmute vkey sw lamp sysh temp fans net signage).

(** ** [projector_status.py]

    A script that drives an already open port directly.  Its console output
    ([print]) is not modelled. *)

(** [command.endswith('\r')] *)
Definition ends_with_cr (s : string) : bool :=
  match rev_str s with
  | String c _ => Ascii.eqb c (ascii_of_nat 13)
  | EmptyString => false
  end.

(** The loop of [send_command]: like [_send_command]'s, but a poll that
    finds nothing ends the loop once some data has arrived. *)
Fixpoint status_read_loop (n : nat) (src : list bytes) (response : bytes)
  : bytes * list event * list bytes :=
  match n with
  | O => (response, [], src)
  | S n' =>
      let '(chunk, src') :=
        match src with [] => ([], []) | c :: r => (c, r) end in
      if 0 <? List.length chunk then
        let response' := (response ++ chunk)%list in
        if has_marker response' then
          (response', [ESleep 100; EPoll (List.length chunk); ERead chunk], src')
        else
          let '(r, ev, rest) := status_read_loop n' src' response' in
          (r, ESleep 100 :: EPoll (List.length chunk) :: ERead chunk :: ev, rest)
      else if 0 <? List.length response then
        (response, [ESleep 100; EPoll 0], src')
      else
        let '(r, ev, rest) := status_read_loop n' src' response in
        (r, ESleep 100 :: EPoll 0 :: ev, rest)
  end.

Definition status_read_response : M bytes :=
  fun s =>
    let '(r, ev, rest) := status_read_loop 10 (rx s) [] in
    (Ret r, mkCtl (device_id s) (is_open s) (open_ok s) rest (trace s ++ ev)%list).

(** [send_command(ser, command)] *)
Definition send_command (command : string) : M string :=
  emit [EResetIn; EResetOut] ;;;
  let command := if ends_with_cr command then command else command ++ CR in
  cmd_bytes <- raise_py (encode_ascii command) ;;
  emit [EWrite cmd_bytes; EFlush] ;;;
  response <- status_read_response ;;
  ret (strip (decode_ascii_ignore response)).

(** The dict built by [parse_system_info]. *)
Record status_info := mkStatusInfo {
  power_status : string;
  lamp_hours : string;
  input_source_code : string;
  firmware_version : string;
  picture_mode_code : string;
  input_source : string;
  picture_mode : string
}.

(** [parse_system_info(response)]; [None] is Python's [None]. *)
Definition parse_system_info (response : string) : py (option status_info) :=
  if negb (String.prefix "Ok" response) then Ret None else
  let data := py_drop 2 response in
  if 13 <=? String.length data then
    match py_index data 0 with
    | Raise e => Raise e
    | Ret d0 =>
        let source_map := [("07", "HDMI 1"); ("20", "Android (USB-A/SD Card/Home)")] in
        let mode_map := [("01", "Presentation (PC)"); ("02", "Bright"); ("03", "Cinema");
                         ("04", "sRGB"); ("14", "Photo (Vivid)"); ("28", "Eco");
                         ("29", "iDevice")] in
        Ret (Some (mkStatusInfo
          (if String.eqb d0 "1" then "On" else "Off")
          (py_slice data 1 6)
          (py_slice data 6 8)
          (py_slice data 8 12)
          (if 14 <=? String.length data then py_slice data 12 14 else "N/A")
          (dict_get source_map (py_slice data 6 8) (unknown_label (py_slice data 6 8)))
          (dict_get mode_map (py_slice data 12 14) (unknown_label (py_slice data 12 14)))))
    end
  else Ret None.

(** ** Derived notions used to state the properties *)

(** How the module treats a response: [_check_success] accepts exactly
    ['P'] and strings starting with ['Ok']; the queries take
    [response[2:]] of the latter as their payload. *)
Inductive outcome := Success | Failure | Data (payload : string).

Definition classify (response : string) : outcome :=
  if String.eqb response "P" then Success
  else if String.prefix "Ok" response then Data (py_drop 2 response)
  else Failure.

(** The frames written to the port, in order. *)
Fixpoint writes (ev : list event) : list bytes :=
  match ev with
  | [] => []
  | EWrite b :: ev' => b :: writes ev'
  | _ :: ev' => writes ev'
  end.

(** Number of [in_waiting] polls. *)
Fixpoint polls (ev : list event) : nat :=
  match ev with
  | [] => 0
  | EPoll _ :: ev' => S (polls ev')
  | _ :: ev' => polls ev'
  end.

(** The bytes waiting at each of the first [n] polls of a script. *)
Fixpoint arrivals (src : list bytes) (n : nat) : list bytes :=
  match n with
  | O => []
  | S n' =>
      match src with
      | [] => [] :: arrivals [] n'
      | c :: r => c :: arrivals r n'
      end
  end.

(** The events of a run of polls over the given arrivals: each poll is
    preceded by a 100 ms sleep and followed, when bytes are waiting, by a
    read of exactly those bytes. *)
Inductive poll_events : list bytes -> list event -> Prop :=
| pe_nil : poll_events [] []
| pe_idle cs ev :
    poll_events cs ev -> poll_events ([] :: cs) (ESleep 100 :: EPoll 0 :: ev)
| pe_read c cs ev :
    c <> [] -> poll_events cs ev ->
    poll_events (c :: cs) (ESleep 100 :: EPoll (List.length c) :: ERead c :: ev).

Fixpoint all_digits (s : string) : bool :=
  match s with
  | EmptyString => true
  | String c r => is_digit c && all_digits r
  end.

Fixpoint spaces (s : string) : nat :=
  match s with
  | EmptyString => 0
  | String c r => (if Ascii.eqb c " "%char then 1 else 0) + spaces r
  end.

(** The frame as the specification words it: ['~'] + address +
    feature-code digits + [' '] + sub-code digits, then [' '] and the
    decimal argument when there is one, then ["\r"]. *)
Definition claimed_frame (address feature sub : string) (argument : option Z) : string :=
  "~" ++ address ++ feature ++ " " ++ sub ++
  match argument with Some a => " " ++ py_str_int a | None => "" end ++ CR.

(** The entry of [results['success']] that [apply_volume] records for a
    target and the volume read before stepping. *)
Definition volume_success_item (target current : Z) : string :=
  if Z.eqb target current then volume_item target ++ " (unchanged)"
  else volume_item target.

(** The frame of one volume step towards [target] from [current]. *)
Definition volume_step_command (target current : Z) : string :=
  if (current <? target)%Z then Setter.command Setter.volume_up
  else Setter.command Setter.volume_down.

(** A command string cut at its first space: feature code and the rest. *)
Fixpoint split_space (s : string) : string * string :=
  match s with
  | EmptyString => ("", "")
  | String c r =>
      if Ascii.eqb c " "%char then ("", r)
      else let '(a, b) := split_space r in (String c a, b)
  end.

(** The events of [connect] on a port that is closed. *)
Definition connect_events (s : ctl) : list event :=
  if is_open s then [] else [EOpen; ESetRTS; ESetDTR; ESleep 200].

(** What a setter returns for the result of its one exchange. *)
Definition setter_result (r : py string) : py bool :=
  match r with
  | Ret response => Ret (_check_success response)
  | Raise e => Raise e
  end.

(** A string without whitespace characters. *)
Definition no_ws (s : string) : Prop :=
  Forall (fun c => is_ws c = false) (list_ascii_of_string s).

(** The commands [capture_config] sends, in order. *)
Definition capture_commands : list string :=
  ["558 1"; "555 2"; "124 1"; "121 1"; "123 1"; "129 1"; "127 1"; "543 9";
   "125 1"; "126 1"; "128 1"; "120 1"; "356 1"; "355 1"; "543 3"; "122 1";
   "108 1"; "150 21"; "352 1"; "351 0"; "351 1"; "351 2"; "451 1"; "568 1"].

(** A configuration holding one entry. *)
Definition empty_config : config :=
  mkConfig None None None None None None None None None None None None.

Definition only_power (v : option bool) : config :=
  mkConfig (Some v) None None None None None None None None None None None.
Definition only_source (v : option string) : config :=
  mkConfig None (Some v) None None None None None None None None None None.
Definition only_display_mode (v : option string) : config :=
  mkConfig None None (Some v) None None None None None None None None None.
Definition only_projection_mode (v : option string) : config :=
  mkConfig None None None (Some v) None None None None None None None None.
Definition only_aspect_ratio (v : option string) : config :=
  mkConfig None None None None (Some v) None None None None None None None.
Definition only_digital_zoom (v : option string) : config :=
  mkConfig None None None None None (Some v) None None None None None None.
Definition only_brightness (v : option Z) : config :=
  mkConfig None None None None None None (Some v) None None None None None.
Definition only_contrast (v : option Z) : config :=
  mkConfig None None None None None None None (Some v) None None None None.
Definition only_color_temperature (v : option string) : config :=
  mkConfig None None None None None None None None (Some v) None None None.
Definition only_audio_mute (v : option bool) : config :=
  mkConfig None None None None None None None None None None (Some v) None.
Definition only_av_mute (v : option bool) : config :=
  mkConfig None None None None None None None None None None None (Some v).

(** The configuration without its power entry. *)
Definition without_power (cfg : config) : config :=
  mkConfig None (cfg_source_input cfg) (cfg_display_mode cfg) (cfg_projection_mode cfg)
    (cfg_aspect_ratio cfg) (cfg_digital_zoom cfg) (cfg_brightness cfg) (cfg_contrast cfg)
    (cfg_color_temperature cfg) (cfg_volume cfg) (cfg_audio_mute cfg) (cfg_av_mute cfg).

Definition with_skipped (l : list string) (r : report) : report :=
  mkReport (success r) (failed r) l.

(** A monadic result mapped through [f]. *)
Definition map_result {A B} (f : A -> B) (p : py A * ctl) : py B * ctl :=
  match p with
  | (Ret a, s) => (Ret (f a), s)
  | (Raise e, s) => (Raise e, s)
  end.

(** Predicates used by the further properties below. *)

Fixpoint r_spaced (s : string) : bool :=
  match s with
  | EmptyString => true
  | String c r =>
      (if Ascii.eqb c "R"%char then
         match r with String d _ => Ascii.eqb d " "%char | EmptyString => false end
       else true) && r_spaced r
  end.

Definition r_token (tok : string) : Prop := String.prefix "R" tok = true -> tok = "R".

Definition sends {A} (cmds : list string) (m : M A) : Prop :=
  forall s, (is_open s = true \/ open_ok s = true) -> ascii_ok (device_id s) = true ->
  exists k r s', m s = (r, s') /\ k <= List.length cmds /\
    (is_open s' = true \/ open_ok s' = true) /\ device_id s' = device_id s /\
    writes (trace s') =
      (writes (trace s) ++ map (fun c => to_bytes (frame (device_id s) c)) (firstn k cmds))%list /\
    (forall a, r = Ret a -> k = List.length cmds).

Definition inert {A} (m : M A) : Prop :=
  forall s, is_open s = false -> open_ok s = false -> snd (m s) = s.

Definition no_key_in (table : list (list string * Setter.t)) (value : string) : Prop :=
  Forall (fun row => Forall (fun k => str_contains k value = false) (fst row)) table.

Definition skip_parametric (sec : config -> report -> M report) : Prop :=
  forall cfg l r s, sec cfg (with_skipped l r) s = map_result (with_skipped l) (sec cfg r s).

(** * Properties *)

(** ** Strings *)

Lemma prefix_Ok_iff (r : string) :
  String.prefix "Ok" r = true <-> exists p, r = "Ok" ++ p.
Proof.
  split.
  - intros H. destruct r as [|a [|b r']]; cbn [String.prefix] in H; try discriminate H.
    + destruct (ascii_dec "O" a); discriminate H.
    + destruct (ascii_dec "O" a) as [<-|]; [|discriminate H].
      destruct (ascii_dec "k" b) as [<-|]; [|discriminate H].
      exists r'. reflexivity.
  - intros [p ->]. cbn [String.prefix String.append].
    destruct (ascii_dec "O" "O") as [_|n]; [|congruence].
    destruct (ascii_dec "k" "k") as [_|n]; [|congruence].
    destruct p; reflexivity.
Qed.

Lemma substring_whole (p : string) : substring 0 (String.length p) p = p.
Proof. induction p as [|c p IH]; simpl; congruence. Qed.

Lemma drop_Ok (p : string) : py_drop 2 ("Ok" ++ p) = p.
Proof.
  unfold py_drop. simpl. rewrite Nat.sub_0_r. apply substring_whole.
Qed.

Lemma Ok_app_inj (p q : string) : "Ok" ++ p = "Ok" ++ q -> p = q.
Proof. simpl. intros H. injection H. auto. Qed.

Lemma ascii_ok_app (a b : string) : ascii_ok (a ++ b) = ascii_ok a && ascii_ok b.
Proof.
  induction a as [|c a IH]; simpl; [reflexivity|].
  rewrite IH. apply andb_assoc.
Qed.

Lemma to_bytes_app (a b : string) : to_bytes (a ++ b) = (to_bytes a ++ to_bytes b)%list.
Proof. induction a as [|c a IH]; simpl; congruence. Qed.

Lemma to_bytes_inj (a b : string) : to_bytes a = to_bytes b -> a = b.
Proof.
  revert b. induction a as [|c a IH]; intros [|d b]; simpl; try discriminate; auto.
  intros H. injection H as Hc Hr.
  rewrite <- (ascii_of_byte_of_ascii c), <- (ascii_of_byte_of_ascii d), Hc.
  f_equal. auto.
Qed.

Lemma spaces_app (a b : string) : spaces (a ++ b) = spaces a + spaces b.
Proof. induction a as [|c a IH]; simpl; lia. Qed.

Lemma spaces_digits (s : string) : all_digits s = true -> spaces s = 0.
Proof.
  induction s as [|c s IH]; simpl; [reflexivity|].
  intros H. apply andb_prop in H as [Hc Hs].
  rewrite IH by exact Hs.
  destruct (Ascii.eqb_spec c " "%char); [subst; discriminate | reflexivity].
Qed.

Lemma frame_ascii (device command : string) :
  ascii_ok (frame device command) = ascii_ok device && ascii_ok command.
Proof.
  unfold frame. simpl. rewrite !ascii_ok_app. simpl.
  rewrite andb_true_r. reflexivity.
Qed.

Lemma uint_string_ascii (d : Decimal.uint) : ascii_ok (NilEmpty.string_of_uint d) = true.
Proof. induction d; simpl; auto. Qed.

Lemma py_str_int_ascii (z : Z) : ascii_ok (py_str_int z) = true.
Proof.
  unfold py_str_int, NilEmpty.string_of_int.
  destruct (Z.to_int z); simpl; [|rewrite uint_string_ascii]; apply uint_string_ascii || reflexivity.
Qed.

(** ** C1: classification of responses and the setters' success test *)

(** C1: every response has exactly one outcome: ['P'] is [Success], a
    string ["Ok" ++ p] is [Data p] (so ["Ok"] is [Data ""]), anything else
    is [Failure]; [_check_success] holds exactly for ['P'] and the strings
    starting with ['Ok']; and every setter, fixed or taking an in-range
    argument, returns [_check_success] of the response of its exchange. *)
Theorem classify_and_setters (response : string) :
  (classify response = Success <-> response = "P") /\
  (forall payload, classify response = Data payload <-> response = "Ok" ++ payload) /\
  (classify response = Failure <->
     response <> "P" /\ ~ (exists payload, response = "Ok" ++ payload)) /\
  classify "Ok" = Data "" /\
  (_check_success response = true <->
     response = "P" \/ exists payload, response = "Ok" ++ payload) /\
  (forall (o : Setter.t) (s : ctl),
     fst (run_setter o s) = setter_result (fst (_send_command (Setter.command o) s))) /\
  (forall (v : Z) (s : ctl),
     fst (set_brightness v s) =
       if (0 <=? v)%Z && (v <=? 10)%Z
       then setter_result (fst (_send_command ("21 " ++ py_str_int v) s))
       else Ret false) /\
  (forall (v : Z) (s : ctl),
     fst (set_contrast v s) =
       if (0 <=? v)%Z && (v <=? 10)%Z
       then setter_result (fst (_send_command ("22 " ++ py_str_int v) s))
       else Ret false) /\
  (forall (v : Z) (s : ctl),
     fst (set_digital_zoom v s) =
       if (0 <=? v)%Z && (v <=? 6)%Z
       then setter_result (fst (_send_command ("62 " ++ py_str_int v) s))
       else Ret false) /\
  (forall (v : Z) (s : ctl),
     fst (set_language v s) = setter_result (fst (_send_command ("70 " ++ py_str_int v) s))).
Proof.
  assert (HP : forall p, "P" <> "Ok" ++ p) by (intros p H; discriminate H).
  assert (Hsend : forall c s, fst (bind (_send_command c) (fun r => ret (_check_success r)) s)
                              = setter_result (fst (_send_command c s))).
  { intros c s. unfold bind. destruct (_send_command c s) as [[r|e] s']; reflexivity. }
  split; [|split; [|split; [|split; [|split; [|split; [|split; [|split; [|split]]]]]]]].
  - unfold classify. split.
    + destruct (String.eqb_spec response "P"); [auto|].
      destruct (String.prefix "Ok" response); discriminate.
    + intros ->. reflexivity.
  - intros payload. unfold classify. split.
    + destruct (String.eqb_spec response "P") as [->|Hne]; [discriminate|].
      destruct (String.prefix "Ok" response) eqn:Hp; [|discriminate].
      apply prefix_Ok_iff in Hp as [p0 ->]. rewrite drop_Ok.
      intros H; injection H as <-. reflexivity.
    + intros ->.
      destruct (String.eqb_spec ("Ok" ++ payload) "P") as [H|_];
        [symmetry in H; apply HP in H; contradiction|].
      assert (Hp : String.prefix "Ok" ("Ok" ++ payload) = true)
        by (apply prefix_Ok_iff; eauto).
      rewrite Hp, drop_Ok. reflexivity.
  - unfold classify. split.
    + intros Hf. split; [intros ->; discriminate|].
      intros [p ->].
      destruct (String.eqb_spec ("Ok" ++ p) "P") as [H|_]; [discriminate|].
      assert (Hp : String.prefix "Ok" ("Ok" ++ p) = true) by (apply prefix_Ok_iff; eauto).
      rewrite Hp in Hf. discriminate.
    + intros [Hne Hnp].
      destruct (String.eqb_spec response "P"); [contradiction|].
      destruct (String.prefix "Ok" response) eqn:Hp; [|reflexivity].
      apply prefix_Ok_iff in Hp. contradiction.
  - reflexivity.
  - unfold _check_success. split.
    + intros H. apply orb_prop in H as [H|H].
      * left. apply String.eqb_eq. exact H.
      * right. apply prefix_Ok_iff. exact H.
    + intros [->|Hp]; [reflexivity|].
      apply prefix_Ok_iff in Hp. rewrite Hp. apply orb_true_r.
  - intros o s. apply Hsend.
  - intros v s. unfold set_brightness.
    destruct ((0 <=? v)%Z && (v <=? 10)%Z); [apply Hsend|reflexivity].
  - intros v s. unfold set_contrast.
    destruct ((0 <=? v)%Z && (v <=? 10)%Z); [apply Hsend|reflexivity].
  - intros v s. unfold set_digital_zoom.
    destruct ((0 <=? v)%Z && (v <=? 6)%Z); [apply Hsend|reflexivity].
  - intros v s. apply Hsend.
Qed.

(** ** One exchange on the port *)

Lemma writes_app (a b : list event) : writes (a ++ b) = (writes a ++ writes b)%list.
Proof. induction a as [|e a IH]; [reflexivity|]. destruct e; simpl; congruence. Qed.

Ltac split_read_loop IH :=
  repeat match goal with
  | |- context [read_loop ?n ?a ?b] =>
      let r := fresh "r" in let ev := fresh "ev" in let rest := fresh "rest" in
      let E := fresh "E" in
      pose proof (IH a b) as E; destruct (read_loop n a b) as [[r ev] rest]; simpl in E
  end.

Lemma read_loop_writes (n : nat) :
  forall src response, writes (snd (fst (read_loop n src response))) = [].
Proof.
  induction n as [|n IH]; intros src response; [reflexivity|].
  destruct src as [|c src]; cbn [read_loop].
  - cbn. split_read_loop IH. exact E.
  - destruct (0 <? List.length c); [destruct (has_marker (response ++ c)%list); [reflexivity|]|];
      split_read_loop IH; exact E.
Qed.

Lemma send_ok (s : ctl) (command : string) :
  (is_open s = true \/ open_ok s = true) ->
  ascii_ok (frame (device_id s) command) = true ->
  _send_command command s =
    let '(response, ev, rest) := read_loop 10 (rx s) [] in
    (Ret (strip (decode_ascii_ignore response)),
     mkCtl (device_id s) true (open_ok s) rest
       (trace s ++ connect_events s ++
        [EResetIn; EResetOut; EWrite (to_bytes (frame (device_id s) command)); EFlush] ++ ev)%list).
Proof.
  destruct s as [id op ok src tr]; cbn [is_open open_ok device_id rx trace connect_events].
  intros Hc Ha.
  unfold _send_command, bind, connect, emit, self_device_id, raise_py, read_response,
    encode_ascii, log, opened, ret.
  destruct op; [|destruct Hc as [Hc|Hc]; [discriminate|subst ok]];
    cbv beta iota zeta delta [is_open open_ok device_id rx trace negb];
    rewrite Ha; destruct (read_loop 10 src []) as [[r ev] rest];
    rewrite <- !app_assoc; reflexivity.
Qed.

(** ** The poll loop *)

Lemma arrivals_split (k : nat) :
  forall m src, k <= m ->
  arrivals src m = (arrivals src k ++ arrivals (skipn k src) (m - k))%list.
Proof.
  induction k as [|k IH]; intros m src Hk; [simpl; rewrite Nat.sub_0_r; reflexivity|].
  destruct m as [|m]; [lia|].
  destruct src as [|c src]; simpl; rewrite (IH m) by lia; [|reflexivity].
  destruct k; reflexivity.
Qed.

Lemma concat_app_nil {A} (l1 l2 : list (list A)) :
  List.concat (l1 ++ l2)%list = [] -> List.concat l1 = [].
Proof. rewrite List.concat_app. destruct (List.concat l1); [auto|discriminate]. Qed.

Lemma read_loop_spec (n : nat) :
  forall src response, has_marker response = false ->
  let '(r, ev, _) := read_loop n src response in
  polls ev <= n /\
  poll_events (arrivals src (polls ev)) ev /\
  r = (response ++ List.concat (arrivals src (polls ev)))%list /\
  (forall j, j < polls ev -> has_marker (response ++ List.concat (arrivals src j))%list = false) /\
  (polls ev = n \/ has_marker r = true).
Proof.
  induction n as [|n IH]; intros src response Hm.
  - simpl. repeat split; try lia; [apply pe_nil|rewrite app_nil_r; reflexivity].
  - assert (Hidle : forall src0 src',
      (forall k, arrivals src0 (S k) = [] :: arrivals src' k) ->
      let '(r, ev, _) :=
        (let '(r, ev, rest) := read_loop n src' response in
         (r, ESleep 100 :: EPoll 0 :: ev, rest)) in
      polls ev <= S n /\
      poll_events (arrivals src0 (polls ev)) ev /\
      r = (response ++ List.concat (arrivals src0 (polls ev)))%list /\
      (forall j, j < polls ev ->
         has_marker (response ++ List.concat (arrivals src0 j))%list = false) /\
      (polls ev = S n \/ has_marker r = true)).
    { intros src0 src' Hs. specialize (IH src' response Hm).
      destruct (read_loop n src' response) as [[r ev] rest].
      destruct IH as (Hk & Hpe & Hr & Hj & Hend). cbn [polls].
      rewrite !Hs. cbn [List.concat]. rewrite app_nil_l.
      repeat split; [lia|constructor; exact Hpe|exact Hr| |].
      - intros [|j] Hj'.
        + destruct src0; cbn [arrivals List.concat]; rewrite app_nil_r; exact Hm.
        + rewrite Hs. cbn [List.concat]. rewrite app_nil_l. apply Hj. lia.
      - destruct Hend; [left; lia|right; assumption]. }
    destruct src as [|c src']; cbn [read_loop].
    + change (0 <? List.length (@nil Byte.byte)) with false. cbv iota.
      apply (Hidle [] []). reflexivity.
    + destruct (0 <? List.length c) eqn:Hc.
      * assert (Hne : c <> []) by (intros ->; discriminate Hc).
        destruct (has_marker (response ++ c)%list) eqn:Hm'.
        -- cbn [polls arrivals List.concat]. rewrite app_nil_r.
           repeat split; [lia|constructor; [exact Hne|constructor]| |auto].
           intros j Hj. assert (j = 0) as -> by lia. simpl. rewrite app_nil_r. exact Hm.
        -- specialize (IH src' (response ++ c)%list Hm').
           destruct (read_loop n src' (response ++ c)%list) as [[r ev] rest].
           destruct IH as (Hk & Hpe & Hr & Hj & Hend). cbn [polls arrivals List.concat].
           repeat split; [lia|constructor; assumption| | |].
           ++ rewrite Hr, app_assoc. reflexivity.
           ++ intros [|j] Hj'; cbn [arrivals List.concat]; [rewrite app_nil_r; exact Hm|].
              rewrite app_assoc. apply Hj. lia.
           ++ destruct Hend; [left; lia|right; assumption].
      * assert (c = []) as -> by (destruct c; [reflexivity|discriminate Hc]).
        change (0 <? List.length (@nil Byte.byte)) with false. cbv iota.
        apply (Hidle ([] :: src') src'). reflexivity.
Qed.

(** ** C4: the response reader *)

(** C4: on a port that is open (or opens), one exchange writes the frame
    and then polls at most 10 times, each poll preceded by a 100 ms sleep
    and followed by a read of all the bytes waiting then; the buffer is the
    concatenation of what was read; no buffer before the last poll held a
    marker (['Ok'], ['P'] or ['F']); the loop ends on a marker or after the
    10th poll; the result is the buffer decoded as ASCII and stripped.  A
    transport that yields no bytes gives [""] after exactly 10 polls. *)
Theorem send_command_poll_loop (s : ctl) (command : string) :
  (is_open s = true \/ open_ok s = true) ->
  ascii_ok (frame (device_id s) command) = true ->
  let '(response, ev, _) := read_loop 10 (rx s) [] in
  fst (_send_command command s) = Ret (strip (decode_ascii_ignore response)) /\
  trace (snd (_send_command command s)) =
    (trace s ++ connect_events s ++
     [EResetIn; EResetOut; EWrite (to_bytes (frame (device_id s) command)); EFlush] ++ ev)%list /\
  polls ev <= 10 /\
  poll_events (arrivals (rx s) (polls ev)) ev /\
  response = List.concat (arrivals (rx s) (polls ev)) /\
  (forall j, j < polls ev -> has_marker (List.concat (arrivals (rx s) j)) = false) /\
  (polls ev = 10 \/ has_marker response = true) /\
  (List.concat (arrivals (rx s) 10) = [] ->
     response = [] /\ polls ev = 10 /\ fst (_send_command command s) = Ret "").
Proof.
  intros Hc Ha. rewrite (send_ok s command Hc Ha).
  pose proof (read_loop_spec 10 (rx s) [] eq_refl) as H.
  destruct (read_loop 10 (rx s) []) as [[r ev] rest].
  destruct H as (Hk & Hpe & Hr & Hj & Hend).
  rewrite app_nil_l in Hr. cbn [fst snd trace].
  split; [reflexivity|]. split; [reflexivity|]. split; [exact Hk|].
  split; [exact Hpe|]. split; [exact Hr|].
  split; [intros j Hj'; specialize (Hj j Hj'); rewrite app_nil_l in Hj; exact Hj|].
  split; [exact Hend|].
  - intros Hnil. rewrite (arrivals_split (polls ev) 10) in Hnil by exact Hk.
    apply concat_app_nil in Hnil. rewrite Hr, Hnil. rewrite Hr, Hnil in Hend.
    split; [reflexivity|]. split; [|reflexivity].
    destruct Hend as [E|E]; [exact E|vm_compute in E; discriminate E].
Qed.

(** ** C2: the frame written for each operation *)

Lemma connect_events_writes (s : ctl) : writes (connect_events s) = [].
Proof. unfold connect_events. destruct (is_open s); reflexivity. Qed.

Lemma send_writes (s : ctl) (command : string) :
  (is_open s = true \/ open_ok s = true) ->
  ascii_ok (device_id s) = true -> ascii_ok command = true ->
  writes (trace (snd (_send_command command s))) =
    (writes (trace s) ++ [to_bytes (frame (device_id s) command)])%list.
Proof.
  intros Hc Hd Hcmd.
  assert (Ha : ascii_ok (frame (device_id s) command) = true)
    by (rewrite frame_ascii, Hd, Hcmd; reflexivity).
  rewrite (send_ok s command Hc Ha).
  pose proof (read_loop_writes 10 (rx s) []) as Hw.
  destruct (read_loop 10 (rx s) []) as [[r ev] rest]. cbn [snd fst trace] in *.
  rewrite !writes_app, connect_events_writes, Hw. cbn [writes].
  rewrite !app_nil_r, app_nil_l. reflexivity.
Qed.

Lemma bind_ret_snd {A B} (m : M A) (f : A -> B) (s : ctl) :
  snd (bind m (fun a => ret (f a)) s) = snd (m s).
Proof. unfold bind, ret. destruct (m s) as [[a|e] s']; reflexivity. Qed.

Lemma arg_command_ascii (prefix : string) (v : Z) :
  ascii_ok prefix = true -> ascii_ok (prefix ++ py_str_int v) = true.
Proof. intros H. rewrite ascii_ok_app, H, py_str_int_ascii. reflexivity. Qed.

Lemma setter_command_shape (o : Setter.t) :
  let '(feature, sub) := split_space (Setter.command o) in
  all_digits feature = true /\ all_digits sub = true /\
  feature <> "" /\ sub <> "" /\ Setter.command o = feature ++ " " ++ sub.
Proof. destruct o; vm_compute; repeat split; discriminate. Qed.

(** C2 (counterexample): [set_brightness 5] on device ["00"] writes the
    single frame ["~0021 5\r"], which has one space, so it is not of the
    claimed form ['~'] + two-digit address + feature digits + [' '] +
    sub-code digits + [' '] + ['5'] + ["\r"], which has two. *)
Lemma set_brightness_frame_counterexample :
  ~ (exists address feature sub,
       all_digits address = true /\ String.length address = 2 /\
       all_digits feature = true /\ all_digits sub = true /\
       writes (trace (snd (set_brightness 5 (mkCtl "00" true true [] [])))) =
         [to_bytes (claimed_frame address feature sub (Some 5%Z))]).
Proof.
  intros (a & f & sb & Ha & _ & Hf & Hs & H).
  assert (E : writes (trace (snd (set_brightness 5 (mkCtl "00" true true [] [])))) =
              [to_bytes (frame "00" "21 5")]) by (vm_compute; reflexivity).
  rewrite E in H.
  assert (H' : to_bytes (frame "00" "21 5") = to_bytes (claimed_frame a f sb (Some 5%Z)))
    by exact (f_equal (fun l => hd [] l) H).
  clear H. apply to_bytes_inj in H'. rename H' into H.
  apply (f_equal spaces) in H. unfold frame, claimed_frame in H.
  rewrite !spaces_app, (spaces_digits a Ha), (spaces_digits f Hf),
    (spaces_digits sb Hs) in H.
  vm_compute in H. discriminate H.
Qed.

Ltac in_range_true :=
  match goal with
  | |- context [((0 <=? ?v)%Z && (?v <=? ?b)%Z)] =>
      replace ((0 <=? v)%Z && (v <=? b)%Z) with true
        by (symmetry; apply andb_true_intro; split; apply Z.leb_le; lia)
  end; cbn [negb].

Lemma query_snd {A} (c : string) (dec : string -> py A) (s : ctl) :
  snd (query c dec s) = snd (_send_command c s).
Proof. unfold query, bind, raise_py. destruct (_send_command c s) as [[a|e] s']; reflexivity. Qed.

Lemma getter_command_shape (g : Getter.t) :
  let '(feature, sub) := split_space (Getter.command g) in
  all_digits feature = true /\ all_digits sub = true /\
  feature <> "" /\ sub <> "" /\ Getter.command g = feature ++ " " ++ sub.
Proof. destruct g; vm_compute; repeat split; discriminate. Qed.

Lemma run_getter_writes (g : Getter.t) (s : ctl) :
  (is_open s = true \/ open_ok s = true) -> ascii_ok (device_id s) = true ->
  writes (trace (snd (run_getter g s))) =
    (writes (trace s) ++ [to_bytes (frame (device_id s) (Getter.command g))])%list.
Proof.
  intros Hc Hd.
  assert (E : snd (run_getter g s) = snd (_send_command (Getter.command g) s))
    by (destruct g; unfold run_getter; rewrite bind_ret_snd; apply query_snd).
  rewrite E. apply send_writes; auto. destruct g; reflexivity.
Qed.

Lemma query_int_step (c : string) (s : ctl) :
  (is_open s = true \/ open_ok s = true) -> ascii_ok (device_id s) = true -> ascii_ok c = true ->
  exists a s', query c int_dec s = (Ret a, s') /\ is_open s' = true /\
    device_id s' = device_id s /\
    writes (trace s') = (writes (trace s) ++ [to_bytes (frame (device_id s) c)])%list.
Proof.
  intros Hc Hd Hcmd.
  assert (Ha : ascii_ok (frame (device_id s) c) = true)
    by (rewrite frame_ascii, Hd, Hcmd; reflexivity).
  pose proof (send_writes s c Hc Hd Hcmd) as W.
  pose proof (send_ok s c Hc Ha) as E.
  destruct (read_loop 10 (rx s) []) as [[r ev] rest]. cbv beta iota in E.
  rewrite E in W. cbn [snd] in W.
  unfold query, bind. rewrite E. unfold raise_py, int_dec.
  destruct (String.prefix "Ok" _); (eexists _, _; split; [reflexivity|]);
    cbn [is_open device_id]; auto.
Qed.

Lemma fan_speeds_writes (s : ctl) :
  (is_open s = true \/ open_ok s = true) -> ascii_ok (device_id s) = true ->
  writes (trace (snd (get_fan_speeds s))) =
    (writes (trace s) ++
     map (fun sub => to_bytes (frame (device_id s) ("351" ++ " " ++ sub))) ["0"; "1"; "2"])%list.
Proof.
  intros Hc Hd. unfold get_fan_speeds.
  destruct (query_int_step "351 0" s Hc Hd eq_refl) as (a0 & s1 & E1 & O1 & D1 & W1).
  rewrite <- D1 in Hd.
  destruct (query_int_step "351 1" s1 (or_introl O1) Hd eq_refl) as (a1 & s2 & E2 & O2 & D2 & W2).
  rewrite <- D2 in Hd.
  destruct (query_int_step "351 2" s2 (or_introl O2) Hd eq_refl) as (a2 & s3 & E3 & O3 & D3 & W3).
  unfold bind. rewrite E1. cbv beta iota. rewrite E2. cbv beta iota. rewrite E3.
  cbv beta iota. unfold ret. cbn [snd].
  rewrite W3, W2, W1, D2, D1, <- !app_assoc. reflexivity.
Qed.

(** C2 (amended): every exchange writes exactly one frame,
    ['~'] + the configured device id + the command + ["\r"], ASCII
    encoded.  For each fixed setter the command is feature-code digits,
    one space and sub-code digits; for [set_brightness], [set_contrast],
    [set_digital_zoom] (in range) and [set_language] it is the feature
    code, one space and the decimal argument, which takes the place of
    the sub-code.  Every single-exchange query method sends a fixed
    command of the same feature-digits, space, sub-code-digits shape, and
    [get_fan_speeds] sends ["351 0"], ["351 1"] and ["351 2"] in order. *)
Theorem frame_layout (s : ctl) :
  (is_open s = true \/ open_ok s = true) -> ascii_ok (device_id s) = true ->
  (forall command, ascii_ok command = true ->
     writes (trace (snd (_send_command command s))) =
       (writes (trace s) ++ [to_bytes ("~" ++ device_id s ++ command ++ CR)])%list) /\
  (forall o : Setter.t,
     let '(feature, sub) := split_space (Setter.command o) in
     all_digits feature = true /\ all_digits sub = true /\ feature <> "" /\ sub <> "" /\
     writes (trace (snd (run_setter o s))) =
       (writes (trace s) ++ [to_bytes (frame (device_id s) (feature ++ " " ++ sub))])%list) /\
  (forall v, (0 <= v <= 10)%Z ->
     writes (trace (snd (set_brightness v s))) =
       (writes (trace s) ++ [to_bytes (frame (device_id s) ("21" ++ " " ++ py_str_int v))])%list) /\
  (forall v, (0 <= v <= 10)%Z ->
     writes (trace (snd (set_contrast v s))) =
       (writes (trace s) ++ [to_bytes (frame (device_id s) ("22" ++ " " ++ py_str_int v))])%list) /\
  (forall v, (0 <= v <= 6)%Z ->
     writes (trace (snd (set_digital_zoom v s))) =
       (writes (trace s) ++ [to_bytes (frame (device_id s) ("62" ++ " " ++ py_str_int v))])%list) /\
  (forall v,
     writes (trace (snd (set_language v s))) =
       (writes (trace s) ++ [to_bytes (frame (device_id s) ("70" ++ " " ++ py_str_int v))])%list) /\
  (forall g : Getter.t,
     let '(feature, sub) := split_space (Getter.command g) in
     all_digits feature = true /\ all_digits sub = true /\ feature <> "" /\ sub <> "" /\
     writes (trace (snd (run_getter g s))) =
       (writes (trace s) ++ [to_bytes (frame (device_id s) (feature ++ " " ++ sub))])%list) /\
  writes (trace (snd (get_fan_speeds s))) =
    (writes (trace s) ++
     map (fun sub => to_bytes (frame (device_id s) ("351" ++ " " ++ sub))) ["0"; "1"; "2"])%list.
Proof.
  intros Hc Hd.
  split; [intros command Hcmd; apply (send_writes s command Hc Hd Hcmd)|].
  split; [|split; [|split; [|split; [|split; [|split]]]]].
  - intros o. pose proof (setter_command_shape o) as Hsh.
    destruct (split_space (Setter.command o)) as [f sb].
    destruct Hsh as (H1 & H2 & H3 & H4 & H5).
    repeat split; auto.
    unfold run_setter. rewrite bind_ret_snd.
    rewrite <- H5. apply send_writes; auto. destruct o; reflexivity.
  - intros v Hv. unfold set_brightness. in_range_true. rewrite bind_ret_snd.
    apply send_writes; auto. apply (arg_command_ascii (String _ (String _ " "))); reflexivity.
  - intros v Hv. unfold set_contrast. in_range_true. rewrite bind_ret_snd.
    apply send_writes; auto. apply (arg_command_ascii (String _ (String _ " "))); reflexivity.
  - intros v Hv. unfold set_digital_zoom. in_range_true. rewrite bind_ret_snd.
    apply send_writes; auto. apply (arg_command_ascii (String _ (String _ " "))); reflexivity.
  - intros v. unfold set_language. rewrite bind_ret_snd.
    apply send_writes; auto. apply (arg_command_ascii (String _ (String _ " "))); reflexivity.
  - intros g. pose proof (getter_command_shape g) as Hsh.
    destruct (split_space (Getter.command g)) as [f sb].
    destruct Hsh as (H1 & H2 & H3 & H4 & H5).
    repeat split; auto.
    rewrite <- H5. apply run_getter_writes; auto.
  - apply fan_speeds_writes; auto.
Qed.

(** ** C3: range checks come before any I/O *)

Lemma range_false (v b : Z) :
  (v < 0 \/ b < v)%Z -> (0 <=? v)%Z && (v <=? b)%Z = false.
Proof.
  intros H. destruct ((0 <=? v)%Z && (v <=? b)%Z) eqn:E; [|reflexivity].
  apply andb_prop in E as [E1 E2]. apply Z.leb_le in E1. apply Z.leb_le in E2. lia.
Qed.

(** C3: with a brightness or contrast outside [0..10], or a zoom level
    outside [0..6], the setter returns [False] and leaves the controller
    untouched: the port is not opened, nothing is written or read. *)
Theorem out_of_range_setters_no_io (v : Z) (s : ctl) :
  ((v < 0 \/ 10 < v)%Z ->
     set_brightness v s = (Ret false, s) /\ set_contrast v s = (Ret false, s)) /\
  ((v < 0 \/ 6 < v)%Z -> set_digital_zoom v s = (Ret false, s)).
Proof.
  split.
  - intros H. unfold set_brightness, set_contrast. rewrite (range_false v 10 H).
    split; reflexivity.
  - intros H. unfold set_digital_zoom. rewrite (range_false v 6 H). reflexivity.
Qed.

(** ** C5, C6, C8: decoding on concrete responses *)

(** C5: the projection-mode, colour-temperature, aspect-ratio and
    digital-zoom queries map a code absent from their table to the bare
    label ['Unknown'], dropping the code, while the input-source and
    display-mode queries answer ['Unknown (<code>)'] for theirs. *)
Theorem enum_unknown_code_dropped :
  fst (get_projection_mode (mkCtl "00" true true [to_bytes "Ok7"] [])) = Ret (Some "Unknown") /\
  fst (get_color_temperature (mkCtl "00" true true [to_bytes "Ok9"] [])) = Ret (Some "Unknown") /\
  fst (get_aspect_ratio (mkCtl "00" true true [to_bytes "Ok9"] [])) = Ret (Some "Unknown") /\
  fst (get_digital_zoom (mkCtl "00" true true [to_bytes "Ok9"] [])) = Ret (Some "Unknown") /\
  fst (get_input_source (mkCtl "00" true true [to_bytes "Ok9"] [])) = Ret (Some "Unknown (9)") /\
  fst (get_display_mode (mkCtl "00" true true [to_bytes "Ok99"] [])) = Ret (Some "Unknown (99)").
Proof. repeat split; vm_compute; reflexivity. Qed.

(** C6: a Data response can make a query raise: the bare ["Ok"] makes the
    projection-mode, colour-temperature and digital-zoom queries raise
    [IndexError] (they read [response[2]]), and a non-numeric lamp-hours
    field makes [get_system_info] raise [ValueError]; the integer queries,
    which catch the error, answer [None]. *)
Theorem data_response_raises :
  fst (get_projection_mode (mkCtl "00" true true [to_bytes "Ok"] [])) = Raise IndexError /\
  fst (get_color_temperature (mkCtl "00" true true [to_bytes "Ok"] [])) = Raise IndexError /\
  fst (get_digital_zoom (mkCtl "00" true true [to_bytes "Ok"] [])) = Raise IndexError /\
  fst (get_system_info (mkCtl "00" true true [to_bytes "Ok1abcde07720001"] [])) = Raise ValueError /\
  fst (get_brightness (mkCtl "00" true true [to_bytes "Okab"] [])) = Ret None /\
  fst (get_brightness (mkCtl "00" true true [to_bytes "Ok"] [])) = Ret None.
Proof. repeat split; vm_compute; reflexivity. Qed.

(** C8: [get_system_info] decodes the payload ["1001237072001001"]
    field by field (unknown source ['70'] and mode ['10'] reported with
    their codes) and returns [{}] for a 12-character payload, but a
    non-numeric lamp-hours field ([data[1:6]]) raises [ValueError] and
    loses the whole record, the other fields included. *)
Theorem system_info_decode :
  fst (get_system_info (mkCtl "00" true true [to_bytes "Ok1001237072001001"] [])) =
    Ret (Some (mkSysinfo "On" 123 "Unknown (70)" "7200" (Some "Unknown (10)"))) /\
  fst (get_system_info (mkCtl "00" true true [to_bytes "Ok100123072001"] [])) = Ret None /\
  fst (get_system_info (mkCtl "00" true true [to_bytes "Ok1abcde07720001"] [])) = Raise ValueError.
Proof. repeat split; vm_compute; reflexivity. Qed.

(** ** C7: an empty response and ['F'] *)

(** C7 (counterexample): the code gives [""] and ['F'] the same
    classification: [_check_success] is [False] for both and both are
    [Failure]. *)
Lemma empty_vs_F_counterexample :
  classify "" = classify "F" /\ _check_success "" = _check_success "F".
Proof. split; reflexivity. Qed.

(** C7 (amended): no part of the code tells [""] from ['F']: both are
    [Failure], [_check_success] rejects both, and every query decoder maps
    them to the same result ([None], or the empty dict). *)
Theorem empty_and_F_same :
  classify "" = Failure /\ classify "F" = Failure /\
  _check_success "" = false /\ _check_success "F" = false /\
  bool_state_dec "" = Ret None /\ bool_state_dec "F" = Ret None /\
  int_dec "" = Ret None /\ int_dec "F" = Ret None /\
  text_dec "" = Ret None /\ text_dec "F" = Ret None /\
  get_input_source_dec "" = Ret None /\ get_input_source_dec "F" = Ret None /\
  get_projection_mode_dec "" = Ret None /\ get_projection_mode_dec "F" = Ret None /\
  get_display_mode_dec "" = Ret None /\ get_display_mode_dec "F" = Ret None /\
  get_color_temperature_dec "" = Ret None /\ get_color_temperature_dec "F" = Ret None /\
  get_aspect_ratio_dec "" = Ret None /\ get_aspect_ratio_dec "F" = Ret None /\
  get_digital_zoom_dec "" = Ret None /\ get_digital_zoom_dec "F" = Ret None /\
  get_system_info_dec "" = Ret None /\ get_system_info_dec "F" = Ret None /\
  get_software_version_dec "" = Ret [] /\ get_software_version_dec "F" = Ret [].
Proof. repeat split. Qed.

(** ** C9, C10: restoring the volume *)

Lemma bind_ret_eq {A B} (m : M A) (k : A -> M B) (s s1 : ctl) (a : A) :
  m s = (Ret a, s1) -> bind m k s = k a s1.
Proof. intros H. unfold bind. rewrite H. reflexivity. Qed.

Lemma send_closed (s : ctl) (command : string) :
  is_open s = false -> open_ok s = false -> _send_command command s = (Ret "", s).
Proof.
  destruct s as [id op ok src tr]; cbn [is_open open_ok]. intros -> ->. reflexivity.
Qed.

Lemma send_unencodable (s : ctl) (command : string) :
  (is_open s = true \/ open_ok s = true) ->
  ascii_ok (frame (device_id s) command) = false ->
  fst (_send_command command s) = Raise UnicodeEncodeError.
Proof.
  destruct s as [id op ok src tr]; cbn [is_open open_ok device_id].
  intros Hc Ha.
  unfold _send_command, bind, connect, emit, self_device_id, raise_py,
    encode_ascii, log, opened, ret.
  destruct op; [|destruct Hc as [Hc|Hc]; [discriminate|subst ok]];
    cbv beta iota zeta delta [is_open open_ok device_id rx trace negb];
    rewrite Ha; reflexivity.
Qed.

Lemma get_volume_some (s s1 : ctl) (c : Z) :
  get_volume s = (Ret (Some c), s1) ->
  is_open s1 = true /\ device_id s1 = device_id s /\ ascii_ok (device_id s) = true.
Proof.
  unfold get_volume, query, raise_py. intros H.
  destruct (is_open s || open_ok s) eqn:Hc.
  - apply orb_true_iff in Hc.
    destruct (ascii_ok (frame (device_id s) "120 1")) eqn:Ha.
    + unfold bind in H. rewrite (send_ok s "120 1" Hc Ha) in H.
      destruct (read_loop 10 (rx s) []) as [[r ev] rest]. cbv beta iota in H.
      injection H as _ <-. cbn [is_open device_id].
      rewrite frame_ascii in Ha. apply andb_prop in Ha as [Ha _]. auto.
    + pose proof (send_unencodable s "120 1" Hc Ha) as E.
      unfold bind in H.
      destruct (_send_command "120 1" s) as [[r|e] s']; cbn [fst] in E;
        [discriminate E|discriminate H].
  - apply orb_false_iff in Hc as [H1 H2].
    unfold bind in H. rewrite (send_closed s "120 1" H1 H2) in H. discriminate H.
Qed.

Lemma run_setter_step (o : Setter.t) (s : ctl) :
  is_open s = true -> ascii_ok (device_id s) = true ->
  exists b s1, run_setter o s = (Ret b, s1) /\ is_open s1 = true /\
    device_id s1 = device_id s /\
    writes (trace s1) = (writes (trace s) ++ [to_bytes (frame (device_id s) (Setter.command o))])%list.
Proof.
  intros Ho Hd.
  assert (Hc : is_open s = true \/ open_ok s = true) by auto.
  assert (Hcmd : ascii_ok (Setter.command o) = true) by (destruct o; reflexivity).
  assert (Ha : ascii_ok (frame (device_id s) (Setter.command o)) = true)
    by (rewrite frame_ascii, Hd, Hcmd; reflexivity).
  pose proof (send_writes s (Setter.command o) Hc Hd Hcmd) as W.
  pose proof (send_ok s _ Hc Ha) as E.
  destruct (read_loop 10 (rx s) []) as [[r ev] rest]. cbv beta iota in E.
  rewrite E in W. cbn [snd] in W.
  unfold run_setter. rewrite (bind_ret_eq _ _ _ _ _ E).
  do 2 eexists. split; [reflexivity|]. cbn [is_open device_id]. auto.
Qed.

Lemma repeat_steps_writes (o : Setter.t) (n : nat) :
  forall s, is_open s = true -> ascii_ok (device_id s) = true ->
  exists s', repeat_steps n (run_setter o) s = (Ret tt, s') /\ is_open s' = true /\
    device_id s' = device_id s /\
    writes (trace s') =
      (writes (trace s) ++ repeat (to_bytes (frame (device_id s) (Setter.command o))) n)%list.
Proof.
  induction n as [|n IH]; intros s Ho Hd.
  - exists s. rewrite app_nil_r. auto.
  - destruct (run_setter_step o s Ho Hd) as (b & s1 & E1 & H1 & H2 & H3).
    rewrite <- H2 in Hd.
    destruct (IH s1 H1 Hd) as (s2 & E2 & H4 & H5 & H6).
    exists s2. cbn [repeat_steps]. rewrite (bind_ret_eq _ _ _ _ _ E1).
    split; [exact E2|]. split; [exact H4|]. split; [congruence|].
    rewrite H6, H3, H2, <- app_assoc. reflexivity.
Qed.

(** C9: when [get_volume] reads the volume [current], restoring the volume
    [target] writes, after the frames of that read, exactly
    [|target - current|] step frames: volume-up frames when
    [target > current], volume-down frames when [target < current], none
    when they are equal. *)
Theorem volume_restore_steps (s : ctl) (target current : Z) (res : results) :
  fst (get_volume s) = Ret (Some current) ->
  writes (trace (snd (apply_volume target res s))) =
    (writes (trace (snd (get_volume s))) ++
     repeat (to_bytes (frame (device_id s) (volume_step_command target current)))
       (Z.abs_nat (target - current)))%list.
Proof.
  intros H. destruct (get_volume s) as [g s1] eqn:G. cbn [fst snd] in *. subst g.
  destruct (get_volume_some s s1 current G) as (Ho & Hid & Hd).
  rewrite <- Hid in Hd.
  unfold apply_volume. rewrite (bind_ret_eq _ _ _ _ _ G). cbv iota.
  unfold volume_step_command.
  destruct (current <? target)%Z eqn:Hlt; [|destruct (target <? current)%Z eqn:Hgt].
  - apply Z.ltb_lt in Hlt.
    destruct (repeat_steps_writes Setter.volume_up (Z.to_nat (target - current)) s1 Ho Hd)
      as (s2 & E & _ & _ & W).
    unfold volume_up. rewrite (bind_ret_eq _ _ _ _ _ E). cbn [ret snd].
    rewrite W, Hid.
    replace (Z.abs_nat (target - current)) with (Z.to_nat (target - current)) by lia.
    reflexivity.
  - apply Z.ltb_lt in Hgt.
    destruct (repeat_steps_writes Setter.volume_down (Z.to_nat (current - target)) s1 Ho Hd)
      as (s2 & E & _ & _ & W).
    unfold volume_down. rewrite (bind_ret_eq _ _ _ _ _ E). cbn [ret snd].
    rewrite W, Hid.
    replace (Z.abs_nat (target - current)) with (Z.to_nat (current - target)) by lia.
    reflexivity.
  - apply Z.ltb_ge in Hlt. apply Z.ltb_ge in Hgt.
    replace (Z.abs_nat (target - current)) with 0 by lia.
    cbn [ret snd repeat]. rewrite app_nil_r. reflexivity.
Qed.

(** C10 (counterexample): when the volume cannot be read (no answer on
    the port), restoring [audio.volume = 5] records nothing: the item is
    in neither the success list nor the failed list. *)
Lemma volume_unread_counterexample :
  fst (apply_volume 5 ([], []) (mkCtl "00" true true [] [])) = Ret ([], []).
Proof. vm_compute. reflexivity. Qed.

(** C10 (amended): the results of the volume steps are discarded.  When
    the volume is read as [current], the item is appended to the success
    list ([' (unchanged)'] when [target = current]) whatever the steps
    answered; when the read gives [None] both lists are left as they
    were; the failed list is never changed. *)
Theorem volume_result_ignores_steps (s : ctl) (target : Z) (succ failed : list string) :
  (forall current, fst (get_volume s) = Ret (Some current) ->
     fst (apply_volume target (succ, failed) s) =
       Ret (app succ [volume_success_item target current], failed)) /\
  (fst (get_volume s) = Ret None ->
     apply_volume target (succ, failed) s = (Ret (succ, failed), snd (get_volume s))) /\
  (forall res', fst (apply_volume target (succ, failed) s) = Ret res' -> snd res' = failed).
Proof.
  assert (Hsome : forall current, fst (get_volume s) = Ret (Some current) ->
     fst (apply_volume target (succ, failed) s) =
       Ret (app succ [volume_success_item target current], failed)).
  { intros current H. destruct (get_volume s) as [g s1] eqn:G. cbn [fst] in H. subst g.
    destruct (get_volume_some s s1 current G) as (Ho & Hid & Hd).
    rewrite <- Hid in Hd.
    unfold apply_volume. rewrite (bind_ret_eq _ _ _ _ _ G). cbv iota.
    unfold volume_success_item.
    destruct (current <? target)%Z eqn:Hlt; [|destruct (target <? current)%Z eqn:Hgt].
    - apply Z.ltb_lt in Hlt.
      destruct (repeat_steps_writes Setter.volume_up (Z.to_nat (target - current)) s1 Ho Hd)
        as (s2 & E & _).
      unfold volume_up. rewrite (bind_ret_eq _ _ _ _ _ E).
      rewrite (proj2 (Z.eqb_neq target current)) by lia. reflexivity.
    - apply Z.ltb_lt in Hgt.
      destruct (repeat_steps_writes Setter.volume_down (Z.to_nat (current - target)) s1 Ho Hd)
        as (s2 & E & _).
      unfold volume_down. rewrite (bind_ret_eq _ _ _ _ _ E).
      rewrite (proj2 (Z.eqb_neq target current)) by lia. reflexivity.
    - apply Z.ltb_ge in Hlt. apply Z.ltb_ge in Hgt.
      rewrite (proj2 (Z.eqb_eq target current)) by lia. reflexivity. }
  assert (Hnone : fst (get_volume s) = Ret None ->
     apply_volume target (succ, failed) s = (Ret (succ, failed), snd (get_volume s))).
  { intros H. destruct (get_volume s) as [g s1] eqn:G. cbn [fst snd] in *. subst g.
    unfold apply_volume. rewrite (bind_ret_eq _ _ _ _ _ G). reflexivity. }
  split; [exact Hsome|]. split; [exact Hnone|].
  intros res' H.
  destruct (get_volume s) as [[[c|]|e] s1] eqn:G.
  - rewrite (Hsome c) in H by reflexivity.
    injection H as <-. reflexivity.
  - rewrite Hnone in H by reflexivity.
    injection H as <-. reflexivity.
  - unfold apply_volume, bind in H. rewrite G in H. discriminate H.
Qed.

(** ** Further properties of the modelled code *)

Lemma lstrip_no_ws (s : string) : no_ws s -> lstrip s = s.
Proof. destruct s as [|c r]; [reflexivity|]. intros H. inversion H; subst. simpl. rewrite H2. reflexivity. Qed.

Lemma rev_str_no_ws (s : string) : no_ws s -> no_ws (rev_str s).
Proof.
  unfold no_ws, rev_str. rewrite list_ascii_of_string_of_list_ascii.
  intros H. apply Forall_rev. exact H.
Qed.

Lemma rev_str_involutive (s : string) : rev_str (rev_str s) = s.
Proof.
  unfold rev_str. rewrite list_ascii_of_string_of_list_ascii, rev_involutive.
  apply string_of_list_ascii_of_string.
Qed.

Lemma strip_no_ws (s : string) : no_ws s -> strip s = s.
Proof.
  intros H. unfold strip. rewrite (lstrip_no_ws s H).
  rewrite (lstrip_no_ws _ (rev_str_no_ws s H)). apply rev_str_involutive.
Qed.

Lemma uint_no_ws (d : Decimal.uint) : no_ws (NilEmpty.string_of_uint d).
Proof. induction d; simpl; constructor; auto. Qed.

Ltac digit_step :=
  match goal with |- context [is_digit ?c] =>
    replace (is_digit c) with true by reflexivity end; cbv iota;
  match goal with |- context [digit_val ?c] =>
    let v := eval vm_compute in (digit_val c) in change (digit_val c) with v end.

Lemma digits_acc_uint_pos (d : Decimal.uint) (p : positive) :
  digits_acc (NilEmpty.string_of_uint d) (Z.pos p) false = Some (Z.pos (Pos.of_uint_acc d p)).
Proof.
  revert p. induction d; intros p; cbn [NilEmpty.string_of_uint digits_acc Pos.of_uint_acc];
    [reflexivity| ..]; digit_step;
    match goal with |- context [Pos.of_uint_acc _ ?q] =>
      replace (Z.pos p * 10 + _)%Z with (Z.pos q) by lia end;
    apply IHd.
Qed.

Lemma digits_acc_uint (d : Decimal.uint) :
  digits_acc (NilEmpty.string_of_uint d) 0 false = Some (Z.of_uint d).
Proof.
  induction d; cbn [NilEmpty.string_of_uint digits_acc]; [reflexivity| ..]; digit_step;
    [exact IHd| ..];
    (match goal with |- digits_acc _ (0 * 10 + ?k)%Z false = _ =>
       change (0 * 10 + k)%Z with k end);
    rewrite digits_acc_uint_pos; reflexivity.
Qed.

Lemma py_int_uint (d : Decimal.uint) : d <> Decimal.Nil ->
  py_int (NilEmpty.string_of_uint d) = Some (Z.of_uint d) /\
  py_int (String "-" (NilEmpty.string_of_uint d)) = Some (- Z.of_uint d)%Z.
Proof.
  intros Hd. unfold py_int.
  rewrite (strip_no_ws (NilEmpty.string_of_uint d)) by apply uint_no_ws.
  rewrite (strip_no_ws (String "-" _)) by (constructor; [reflexivity|apply uint_no_ws]).
  pose proof (digits_acc_uint d) as H.
  destruct d; [congruence| ..]; cbn [NilEmpty.string_of_uint] in *;
    (split; [|cbn [Ascii.eqb]]); unfold digits_val; simpl; simpl in H; rewrite H; reflexivity.
Qed.

Lemma py_int_str (z : Z) : py_int (py_str_int z) = Some z.
Proof.
  pose proof (DecimalZ.of_to z) as E.
  unfold py_str_int. destruct z as [|p|p]; [reflexivity| |];
    cbn [Z.to_int NilEmpty.string_of_int Z.of_int] in *;
    (assert (Hd : Pos.to_uint p <> Decimal.Nil) by (intros Hn; rewrite Hn in E; discriminate E));
    destruct (py_int_uint _ Hd) as [H1 H2].
  - rewrite H1. f_equal. exact E.
  - rewrite H2. f_equal. exact E.
Qed.

Lemma length_substring (s : string) :
  forall n m, String.length (substring n m s) = Nat.min m (String.length s - n).
Proof.
  induction s as [|c s IH]; intros [|n] [|m]; cbn [substring String.length]; rewrite ?IH; lia.
Qed.

Lemma length_py_drop (n : nat) (s : string) :
  String.length (py_drop n s) = String.length s - n.
Proof. unfold py_drop. rewrite length_substring. lia. Qed.

Lemma dict_get_absent (d : list (string * string)) (k dflt : string) :
  Forall (fun kv => String.length (fst kv) <> String.length k) d -> dict_get d k dflt = dflt.
Proof.
  induction d as [|[k' v] d IH]; simpl; intros H; [reflexivity|].
  inversion H as [|x l Hx Hl]; subst. simpl in Hx.
  destruct (String.eqb_spec k k'); [subst; contradiction|]. auto.
Qed.

(** X1: the status parser never raises; it gives None exactly when the reply does not start with "Ok" or carries fewer than 13 characters after it. *)
Theorem parse_system_info_none (response : string) :
  (forall e, parse_system_info response <> Raise e) /\
  (parse_system_info response = Ret None <->
     String.prefix "Ok" response = false \/ String.length (py_drop 2 response) < 13).
Proof.
  unfold parse_system_info.
  destruct (String.prefix "Ok" response) eqn:P; cbn [negb].
  2: { split; [discriminate|]. split; auto. }
  set (data := py_drop 2 response). clearbody data.
  destruct (13 <=? String.length data) eqn:L.
  - apply Nat.leb_le in L.
    destruct data as [|c d]; [simpl in L; lia|].
    cbn [py_index get]. split; [discriminate|].
    split; [discriminate|]. intros [H|H]; [discriminate H|lia].
  - apply Nat.leb_gt in L. split; [discriminate|]. split; auto.
Qed.

(** X2: when the controller's get_system_info decodes a reply, the status parser decodes it too, with the same power state, lamp hours and firmware; their source labels differ exactly on code 20, and their picture-mode labels differ exactly on code 29 ("iDevice" against "Unknown (29)"). *)
Theorem parse_system_info_vs_controller (response : string) (i : sysinfo) :
  get_system_info_dec response = Ret (Some i) ->
  exists p, parse_system_info response = Ret (Some p) /\
    power_status p = si_power i /\
    py_int (lamp_hours p) = Some (si_lamp_hours i) /\
    firmware_version p = si_firmware i /\
    (input_source_code p <> "20" -> input_source p = si_input_source i) /\
    (input_source_code p = "20" -> input_source p <> si_input_source i) /\
    (forall m, si_picture_mode i = Some m ->
       (picture_mode_code p <> "29" -> picture_mode p = m) /\
       (picture_mode_code p = "29" -> picture_mode p = "iDevice" /\ m = unknown_label "29")).
Proof.
  intros H. unfold get_system_info_dec in H.
  destruct (String.prefix "Ok" response) eqn:P; [|discriminate H].
  destruct (15 <=? String.length response) eqn:L; [|discriminate H].
  cbn [andb] in H. apply Nat.leb_le in L.
  pose proof (length_py_drop 2 response) as Hlen.
  unfold parse_system_info. rewrite P. cbn [negb].
  set (data := py_drop 2 response) in *. clearbody data.
  destruct data as [|c d]; [simpl in Hlen; lia|].
  remember (14 <=? String.length (String c d)) as b14 eqn:E14.
  change (py_index (String c d) 0) with (@Ret string (String c "")) in H |- *.
  cbv beta iota zeta in H |- *.
  destruct (py_int (py_slice (String c d) 1 6)) as [lh|] eqn:Hlh; [|discriminate H].
  injection H as <-.
  rewrite (proj2 (Nat.leb_le 13 _)) by lia.
  eexists. split; [reflexivity|].
  cbn [power_status lamp_hours firmware_version input_source_code input_source picture_mode
       picture_mode_code si_power si_lamp_hours si_firmware si_input_source si_picture_mode].
  split; [reflexivity|]. split; [exact Hlh|]. split; [reflexivity|].
  split; [|split].
  - intros Hne. unfold dict_get.
    destruct (String.eqb (py_slice (String c d) 6 8) "07"); [reflexivity|].
    destruct (String.eqb_spec (py_slice (String c d) 6 8) "20"); [contradiction|reflexivity].
  - intros E. rewrite E. vm_compute. intros E2. discriminate E2.
  - destruct b14; intros m Hm; [|discriminate Hm].
    injection Hm as <-. split.
    + intros Hne. unfold dict_get.
      repeat (destruct (String.eqb _ _) eqn:?; [reflexivity|]).
      destruct (String.eqb_spec (py_slice (String c d) 12 14) "29"); [contradiction|].
      reflexivity.
    + intros E. rewrite E. split; reflexivity.
Qed.

(** X3: on a reply with exactly 13 characters after "Ok" the status parser still answers: the picture-mode code is "N/A" and the label is built from the one-character slice at position 12. *)
Theorem parse_system_info_short_payload (response : string) :
  String.prefix "Ok" response = true -> String.length (py_drop 2 response) = 13 ->
  exists p, parse_system_info response = Ret (Some p) /\
    picture_mode_code p = "N/A" /\
    String.length (py_slice (py_drop 2 response) 12 14) = 1 /\
    picture_mode p = unknown_label (py_slice (py_drop 2 response) 12 14).
Proof.
  intros P Hl. unfold parse_system_info. rewrite P. cbn [negb].
  set (data := py_drop 2 response) in *. clearbody data.
  destruct data as [|c d]; [discriminate Hl|].
  change (py_index (String c d) 0) with (@Ret string (String c "")). rewrite Hl. cbv beta iota zeta.
  eexists. split; [reflexivity|].
  cbn [picture_mode_code picture_mode].
  assert (Hs : String.length (py_slice (String c d) 12 14) = 1)
    by (unfold py_slice; rewrite length_substring, Hl; reflexivity).
  split; [reflexivity|]. split; [exact Hs|].
  apply dict_get_absent. rewrite Hs. repeat constructor; simpl; discriminate.
Qed.

Lemma byte_of_ascii_nat (c : ascii) : Byte.to_nat (byte_of_ascii c) = nat_of_ascii c.
Proof. apply Byte.to_of_nat. symmetry. apply byte_of_ascii_via_nat. Qed.

Lemma decode_to_bytes (s : string) :
  ascii_ok s = true -> decode_ascii_ignore (to_bytes s) = s.
Proof.
  induction s as [|c s IH]; simpl; [reflexivity|]. intros H.
  apply andb_prop in H as [Hc Hs]. unfold ascii_ok_char in Hc.
  rewrite byte_of_ascii_nat, Hc, ascii_of_byte_of_ascii, IH by exact Hs. reflexivity.
Qed.

Lemma no_ws_cons (c : ascii) (s : string) :
  is_ws c = false -> no_ws s -> no_ws (String c s).
Proof. intros Hc Hs. constructor; assumption. Qed.

Lemma py_str_int_no_ws (z : Z) : no_ws (py_str_int z).
Proof.
  unfold py_str_int, NilEmpty.string_of_int.
  destruct (Z.to_int z); [apply uint_no_ws|apply no_ws_cons; [reflexivity|apply uint_no_ws]].
Qed.

Lemma read_loop_marker_first (n : nat) (c : bytes) (rest : list bytes) :
  0 < List.length c -> has_marker c = true ->
  read_loop (S n) (c :: rest) [] = (c, [ESleep 100; EPoll (List.length c); ERead c], rest).
Proof.
  intros Hl Hm. cbn [read_loop]. apply Nat.ltb_lt in Hl. rewrite Hl. cbn [app].
  rewrite Hm. reflexivity.
Qed.

(** X4: an integer query answered by "Ok" followed by the decimal form of z gives back z, on a port that is open or can be opened. *)
Theorem int_query_round_trip (z : Z) :
  int_dec ("Ok" ++ py_str_int z) = Ret (Some z) /\
  (forall (command : string) (s : ctl) (later : list bytes),
     (is_open s = true \/ open_ok s = true) ->
     ascii_ok (device_id s) = true -> ascii_ok command = true ->
     rx s = to_bytes ("Ok" ++ py_str_int z) :: later ->
     fst (query command int_dec s) = Ret (Some z)).
Proof.
  assert (Hdec : int_dec ("Ok" ++ py_str_int z) = Ret (Some z)).
  { unfold int_dec. rewrite (proj2 (prefix_Ok_iff _)) by eauto.
    rewrite drop_Ok, py_int_str. reflexivity. }
  split; [exact Hdec|].
  intros command s later Hc Hd Hcmd Hrx.
  assert (Ha : ascii_ok (frame (device_id s) command) = true)
    by (rewrite frame_ascii, Hd, Hcmd; reflexivity).
  unfold query, bind. rewrite (send_ok s command Hc Ha), Hrx.
  rewrite read_loop_marker_first by (simpl; lia || reflexivity).
  cbv beta iota zeta. cbn [fst raise_py].
  rewrite decode_to_bytes by (simpl; apply py_str_int_ascii).
  rewrite strip_no_ws by (apply no_ws_cons; [reflexivity|];
                          apply no_ws_cons; [reflexivity|apply py_str_int_no_ws]).
  exact Hdec.
Qed.


Lemma r_spaced_replace_R (s : string) : r_spaced (str_replace "R"%char "R " s) = true.
Proof.
  induction s as [|x r IH]; [reflexivity|]. cbn [str_replace].
  destruct (Ascii.eqb x "R"%char) eqn:E.
  - cbn [String.append r_spaced]. rewrite IH. reflexivity.
  - cbn [r_spaced]. rewrite E, IH. reflexivity.
Qed.

Lemma replace_space (c : ascii) (rep r : string) :
  c <> " "%char -> str_replace c rep (String " " r) = String " " (str_replace c rep r).
Proof.
  intros Hc. cbn [str_replace].
  destruct (Ascii.eqb_spec " "%char c); [congruence|reflexivity].
Qed.

Lemma r_spaced_replace_other (c : ascii) (s : string) :
  c <> "R"%char -> c <> " "%char -> r_spaced s = true ->
  r_spaced (str_replace c (String " " (String c EmptyString)) s) = true.
Proof.
  intros HR Hs. induction s as [|x r IH]; [reflexivity|].
  cbn [r_spaced]. intros H. apply andb_prop in H as [Hx Hr].
  cbn [str_replace]. destruct (Ascii.eqb_spec x c).
  - cbn [String.append r_spaced]. rewrite IH by exact Hr.
    destruct (Ascii.eqb_spec c "R"%char); [contradiction|reflexivity].
  - cbn [r_spaced]. rewrite IH by exact Hr. rewrite andb_true_r.
    destruct (Ascii.eqb x "R"%char); [|reflexivity].
    destruct r as [|d r']; [discriminate Hx|].
    destruct (Ascii.eqb_spec d " "%char); [subst d|discriminate Hx].
    rewrite replace_space by exact Hs. reflexivity.
Qed.


Lemma split_go_r_spaced (s : string) :
  r_spaced s = true -> r_token (fst (split_go s)) /\ Forall r_token (snd (split_go s)).
Proof.
  induction s as [|c r IH]; [split; [discriminate|constructor]|].
  cbn [r_spaced]. intros H. apply andb_prop in H as [Hc Hr].
  destruct (IH Hr) as [Ht Hts].
  cbn [split_go]. destruct (split_go r) as [tok toks] eqn:E. cbn [fst snd] in Ht, Hts.
  destruct (is_ws c); cbn [fst snd].
  - split; [discriminate|]. unfold cons_token.
    destruct (String.eqb tok ""); [exact Hts|constructor; assumption].
  - split; [|exact Hts]. intros Hp.
    cbn [String.prefix] in Hp.
    destruct (Ascii.ascii_dec "R" c) as [<-|]; [|discriminate Hp].
    destruct r as [|d r']; [discriminate Hc|].
    cbn [Ascii.eqb] in Hc.
    destruct (Ascii.eqb_spec d " "%char); [subst d|discriminate Hc].
    cbn [split_go] in E. destruct (split_go r'). injection E as <- _. reflexivity.
Qed.

Lemma split_ws_r_spaced (s : string) : r_spaced s = true -> Forall r_token (split_ws s).
Proof.
  intros H. destruct (split_go_r_spaced s H) as [Ht Hts]. unfold split_ws.
  destruct (split_go s) as [tok toks]. unfold cons_token.
  destruct (String.eqb tok ""); [exact Hts|constructor; assumption].
Qed.

Lemma dict_set_in (d : list (string * string)) (k v k' v' : string) :
  In (k', v') (dict_set d k v) -> In (k', v') d \/ (k' = k /\ v' = v).
Proof.
  induction d as [|[k0 v0] d IH]; cbn [dict_set].
  - intros [E|[]]. injection E as <- <-. auto.
  - destruct (String.eqb_spec k k0) as [<-|].
    + intros [E|H]; [injection E as <- <-; auto|left; right; exact H].
    + intros [E|H]; [left; left; exact E|]. destruct (IH H); [left; right|right]; assumption.
Qed.

Lemma version_key_android (part : string) :
  version_key part = Some "Android" -> String.prefix "R" part = true.
Proof.
  unfold version_key.
  destruct (String.prefix "C" part); [discriminate|].
  destruct (String.prefix "M" part); [discriminate|].
  destruct (String.prefix "R" part); [reflexivity|].
  destruct (String.prefix "L" part); [discriminate|].
  destruct (String.prefix "H" part); [discriminate|].
  destruct (String.prefix "S" part); discriminate.
Qed.

Lemma fold_versions_android (parts : list string) :
  Forall r_token parts ->
  forall acc, (forall v, In ("Android", v) acc -> v = "") ->
  forall v, In ("Android", v)
    (fold_left (fun versions part =>
       match version_key part with
       | Some k => dict_set versions k (py_drop 1 part)
       | None => versions
       end) parts acc) -> v = "".
Proof.
  induction parts as [|t parts IH]; intros Hp acc Hacc; [exact Hacc|].
  inversion Hp as [|x l Ht Hl]; subst. cbn [fold_left]. apply IH; [exact Hl|].
  destruct (version_key t) as [k|] eqn:Hk; [|exact Hacc].
  intros v Hin. destruct (dict_set_in _ _ _ _ _ Hin) as [H|[<- ->]]; [auto|].
  rewrite (Ht (version_key_android t Hk)). reflexivity.
Qed.

(** X5: whatever the reply, get_software_version never stores a non-empty Android version: every R is followed by a space before the reply is split. *)
Theorem software_version_android_lost (response : string) (versions : list (string * string)) :
  get_software_version_dec response = Ret versions ->
  forall v, In ("Android", v) versions -> v = "".
Proof.
  intros H.
  unfold get_software_version_dec in H.
  destruct (String.prefix "Ok" response); [|injection H as <-; intros v []].
  destruct (str_has "C"%char _ && str_has "M"%char _); [|injection H as <-; intros v []].
  injection H as <-. apply fold_versions_android; [|intros v []].
  apply split_ws_r_spaced.
  repeat (apply r_spaced_replace_other; [discriminate|discriminate|]).
  apply r_spaced_replace_R.
Qed.

Lemma list_ascii_app (a b : string) :
  list_ascii_of_string (a ++ b) = (list_ascii_of_string a ++ list_ascii_of_string b)%list.
Proof. induction a as [|c a IH]; simpl; congruence. Qed.

Lemma ends_with_cr_CR (s : string) : ends_with_cr (s ++ CR) = true.
Proof.
  unfold ends_with_cr, rev_str. rewrite list_ascii_app. cbn [list_ascii_of_string CR chr].
  rewrite rev_app_distr. cbn [rev app string_of_list_ascii].
  apply Ascii.eqb_refl.
Qed.

Ltac split_loop f IH :=
  repeat match goal with
  | |- context [f ?n ?a ?b] =>
      let r := fresh "r" in let ev := fresh "ev" in let rest := fresh "rest" in
      let E := fresh "E" in
      pose proof (IH a b) as E; destruct (f n a b) as [[r ev] rest]; simpl in E
  end.

Lemma status_read_loop_writes (n : nat) :
  forall src response, writes (snd (fst (status_read_loop n src response))) = [].
Proof.
  induction n as [|n IH]; intros src response; [reflexivity|].
  destruct src as [|c src]; cbn [status_read_loop].
  - change (0 <? List.length (@nil Byte.byte)) with false. cbv iota.
    destruct (0 <? List.length response); [reflexivity|].
    split_loop status_read_loop IH. exact E.
  - destruct (0 <? List.length c); [destruct (has_marker (response ++ c)%list); [reflexivity|]|];
      [|destruct (0 <? List.length response); [reflexivity|]];
      split_loop status_read_loop IH; exact E.
Qed.

Lemma string_app_assoc (a b c : string) : (a ++ b) ++ c = a ++ b ++ c.
Proof. induction a as [|x a IH]; simpl; congruence. Qed.

(** X6: the status script's send_command writes exactly one frame, the command with one CR appended when it lacks one; a command that is not ASCII raises before anything is written; appending the CR beforehand changes nothing. *)
Theorem status_send_command_frame (command : string) (s : ctl) :
  (ascii_ok command = true ->
   writes (trace (snd (send_command command s))) =
     (writes (trace s) ++
      [to_bytes (if ends_with_cr command then command else command ++ CR)])%list /\
   (forall device code, command = "~" ++ device ++ code -> ends_with_cr command = false ->
      writes (trace (snd (send_command command s))) =
        (writes (trace s) ++ [to_bytes (frame device code)])%list)) /\
  (ascii_ok command = false ->
   fst (send_command command s) = Raise UnicodeEncodeError /\
   writes (trace (snd (send_command command s))) = writes (trace s)) /\
  (ends_with_cr command = false -> send_command (command ++ CR) s = send_command command s).
Proof.
  assert (Hcr : ascii_ok (command ++ CR) = ascii_ok command)
    by (rewrite ascii_ok_app; apply andb_true_r).
  assert (Hw : ascii_ok command = true ->
     writes (trace (snd (send_command command s))) =
       (writes (trace s) ++
        [to_bytes (if ends_with_cr command then command else command ++ CR)])%list).
  { intros Ha. destruct s as [id op ok src tr].
    unfold send_command, bind, emit, raise_py, encode_ascii, status_read_response, ret, log.
    destruct (ends_with_cr command); rewrite ?Hcr, Ha; cbv beta iota zeta;
      cbn [trace device_id is_open open_ok rx];
      pose proof (status_read_loop_writes 10 src []) as W;
      destruct (status_read_loop 10 src []) as [[r ev] rest]; cbn [snd fst trace] in *;
      rewrite !writes_app, W; cbn [writes]; rewrite !app_nil_r; reflexivity. }
  split; [|split].
  - intros Ha. split; [exact (Hw Ha)|].
    intros device code -> He. rewrite (Hw Ha), He. unfold frame.
    rewrite !string_app_assoc. reflexivity.
  - intros Ha. destruct s as [id op ok src tr].
    unfold send_command, bind, emit, raise_py, encode_ascii, status_read_response, ret, log.
    destruct (ends_with_cr command); rewrite ?Hcr, Ha; cbv beta iota zeta; cbn [fst snd trace];
      rewrite writes_app; cbn [writes]; rewrite app_nil_r; split; reflexivity.
  - intros He. unfold send_command. rewrite ends_with_cr_CR, He. reflexivity.
Qed.

Lemma read_loop_extends (n : nat) :
  forall src response, exists t, fst (fst (read_loop n src response)) = (response ++ t)%list.
Proof.
  induction n as [|n IH]; intros src response; [exists []; rewrite app_nil_r; reflexivity|].
  cbn [read_loop]. destruct src as [|c src'];
    [change (0 <? List.length (@nil Byte.byte)) with false; cbv iota|].
  - destruct (IH [] response) as [t Ht].
    destruct (read_loop n [] response) as [[r ev] rest]. exists t. exact Ht.
  - destruct (0 <? List.length c).
    + destruct (has_marker (response ++ c)%list); [exists c; reflexivity|].
      destruct (IH src' (response ++ c)%list) as [t Ht].
      destruct (read_loop n src' (response ++ c)%list) as [[r ev] rest].
      exists (c ++ t)%list. cbn [fst] in *. rewrite Ht, app_assoc. reflexivity.
    + destruct (IH src' response) as [t Ht].
      destruct (read_loop n src' response) as [[r ev] rest]. exists t. exact Ht.
Qed.

Lemma status_loop_prefix (n : nat) :
  forall src response, has_marker response = false ->
  let '(r1, ev1, _) := status_read_loop n src response in
  let '(r2, ev2, _) := read_loop n src response in
  polls ev1 <= polls ev2 /\ (exists t, r2 = (r1 ++ t)%list) /\
  (has_marker r1 = true -> r1 = r2 /\ ev1 = ev2).
Proof.
  induction n as [|n IH]; intros src response Hm.
  - cbn. split; [lia|]. split; [exists []; rewrite app_nil_r; reflexivity|].
    rewrite Hm. discriminate.
  - cbn [status_read_loop read_loop].
    destruct (match src with [] => ([], []) | c :: r => (c, r) end) as [chunk src'].
    destruct (0 <? List.length chunk).
    + destruct (has_marker (response ++ chunk)%list) eqn:Hm'.
      * split; [lia|]. split; [exists []; rewrite app_nil_r; reflexivity|]. auto.
      * specialize (IH src' (response ++ chunk)%list Hm').
        destruct (status_read_loop n src' (response ++ chunk)%list) as [[r1 ev1] rest1].
        destruct (read_loop n src' (response ++ chunk)%list) as [[r2 ev2] rest2].
        destruct IH as (Hp & Ht & He). cbn [polls].
        split; [lia|]. split; [exact Ht|].
        intros H. destruct (He H) as [-> ->]. auto.
    + destruct (0 <? List.length response).
      * pose proof (read_loop_extends n src' response) as [t Ht].
        destruct (read_loop n src' response) as [[r2 ev2] rest2]. cbn [fst] in Ht.
        cbn [polls]. split; [lia|]. split; [exists t; exact Ht|].
        rewrite Hm. discriminate.
      * specialize (IH src' response Hm).
        destruct (status_read_loop n src' response) as [[r1 ev1] rest1].
        destruct (read_loop n src' response) as [[r2 ev2] rest2].
        destruct IH as (Hp & Ht & He). cbn [polls].
        split; [lia|]. split; [exact Ht|].
        intros H. destruct (He H) as [-> ->]. auto.
Qed.

(** X7: with 10 attempts, the status script's reader also stops at the first empty poll once some data has arrived, so it reads a prefix of what the controller's reader returns, with no more polls; when that prefix holds the Ok/P/F marker the two readers agree. *)
Theorem status_reader_vs_controller (src : list bytes) :
  let '(r1, ev1, _) := status_read_loop 10 src [] in
  let '(r2, ev2, _) := read_loop 10 src [] in
  polls ev1 <= polls ev2 /\ (exists t, r2 = (r1 ++ t)%list) /\
  (has_marker r1 = true -> r1 = r2 /\ ev1 = ev2).
Proof. exact (status_loop_prefix 10 src [] eq_refl). Qed.



Lemma sends_ret {A} (a : A) : sends [] (ret a).
Proof.
  intros s Hc Hd. exists 0, (Ret a), s. cbn [firstn map]. rewrite app_nil_r. auto 7.
Qed.

Lemma sends_query {A} (c : string) (dec : string -> py A) :
  ascii_ok c = true -> sends [c] (query c dec).
Proof.
  intros Hcmd s Hc Hd.
  assert (Ha : ascii_ok (frame (device_id s) c) = true)
    by (rewrite frame_ascii, Hd, Hcmd; reflexivity).
  pose proof (send_writes s c Hc Hd Hcmd) as W.
  pose proof (send_ok s c Hc Ha) as E.
  destruct (read_loop 10 (rx s) []) as [[r ev] rest]. cbv beta iota in E.
  rewrite E in W. cbn [snd] in W.
  unfold query. rewrite (bind_ret_eq _ _ _ _ _ E). cbn [raise_py].
  eexists 1, _, _. split; [reflexivity|]. cbn [is_open device_id List.length firstn map].
  split; [lia|]. split; [left; reflexivity|]. split; [reflexivity|]. split; [exact W|]. auto.
Qed.

Lemma sends_bind {A B} (c1 c2 : list string) (m : M A) (k : A -> M B) :
  sends c1 m -> (forall a, sends c2 (k a)) -> sends (c1 ++ c2) (bind m k).
Proof.
  intros H1 H2 s Hc Hd.
  destruct (H1 s Hc Hd) as (k1 & r1 & s1 & E1 & Hk1 & Hc1 & Hd1 & W1 & F1).
  unfold bind. rewrite E1. destruct r1 as [a|e].
  - rewrite <- Hd1 in Hd.
    destruct (H2 a s1 Hc1 Hd) as (k2 & r2 & s2 & E2 & Hk2 & Hc2 & Hd2 & W2 & F2).
    rewrite (F1 a eq_refl) in *.
    exists (List.length c1 + k2), r2, s2. rewrite E2. split; [reflexivity|].
    rewrite length_app. split; [lia|]. split; [exact Hc2|]. split; [congruence|].
    split; [|intros a' Ha'; rewrite (F2 a' Ha'); reflexivity].
    rewrite W2, W1, Hd1, firstn_app_2, map_app, app_assoc, firstn_all. reflexivity.
  - exists k1, (Raise e), s1. split; [reflexivity|]. rewrite length_app.
    split; [lia|]. split; [exact Hc1|]. split; [exact Hd1|].
    split; [|discriminate]. rewrite W1, firstn_app.
    replace (k1 - List.length c1) with 0 by lia. rewrite app_nil_r. reflexivity.
Qed.

Lemma inert_ret {A} (a : A) : inert (ret a).
Proof. intros s _ _. reflexivity. Qed.

Lemma inert_query {A} (c : string) (dec : string -> py A) : inert (query c dec).
Proof.
  intros s H1 H2. unfold query. rewrite (bind_ret_eq _ _ _ _ _ (send_closed s c H1 H2)).
  reflexivity.
Qed.

Lemma inert_bind {A B} (m : M A) (k : A -> M B) :
  inert m -> (forall a, inert (k a)) -> inert (bind m k).
Proof.
  intros H1 H2 s Ho Hk. unfold bind. specialize (H1 s Ho Hk).
  destruct (m s) as [[a|e] s1]; cbn [snd] in *; subst s1; [apply H2|]; auto.
Qed.

Lemma sends_fan_speeds : sends ["351 0"; "351 1"; "351 2"] get_fan_speeds.
Proof.
  unfold get_fan_speeds. change ["351 0"; "351 1"; "351 2"] with
    (["351 0"] ++ (["351 1"] ++ (["351 2"] ++ [])))%list.
  repeat (apply sends_bind; [apply sends_query; reflexivity|intros ?]).
  apply sends_ret.
Qed.

Lemma sends_capture (captured_at : string) : sends capture_commands (capture_config captured_at).
Proof.
  unfold capture_config.
  change capture_commands with
    ((["558 1"] ++ (["555 2"] ++ (["124 1"] ++ (["121 1"] ++ (["123 1"] ++ (["129 1"] ++
    (["127 1"] ++ (["543 9"] ++ (["125 1"] ++ (["126 1"] ++ (["128 1"] ++ (["120 1"] ++
    (["356 1"] ++ (["355 1"] ++ (["543 3"] ++ (["122 1"] ++ (["108 1"] ++ (["150 21"] ++
    (["352 1"] ++ (["351 0"; "351 1"; "351 2"] ++ (["451 1"] ++ (["568 1"] ++
    [])))))))))))))))))))))))%list.
  repeat (apply sends_bind;
          [first [apply sends_fan_speeds | apply sends_query; reflexivity] | intros ?]).
  apply sends_ret.
Qed.

Lemma inert_fan_speeds : inert get_fan_speeds.
Proof.
  unfold get_fan_speeds.
  repeat (apply inert_bind; [apply inert_query|intros ?]). apply inert_ret.
Qed.

Lemma inert_capture (captured_at : string) : inert (capture_config captured_at).
Proof.
  unfold capture_config.
  repeat (apply inert_bind; [first [apply inert_fan_speeds | apply inert_query]|intros ?]).
  apply inert_ret.
Qed.

Lemma send_new_writes (command : string) (s : ctl) :
  ascii_ok (device_id s) = true -> ascii_ok command = true ->
  exists l, writes (trace (snd (_send_command command s))) = (writes (trace s) ++ l)%list /\
    (l = [] \/ l = [to_bytes (frame (device_id s) command)]).
Proof.
  intros Hd Hcmd.
  destruct (is_open s) eqn:O; [|destruct (open_ok s) eqn:K].
  - exists [to_bytes (frame (device_id s) command)]. split; [|right; reflexivity].
    apply send_writes; auto.
  - exists [to_bytes (frame (device_id s) command)]. split; [|right; reflexivity].
    apply send_writes; auto.
  - exists []. rewrite (send_closed s command O K), app_nil_r. split; [reflexivity|left; reflexivity].
Qed.

Lemma arg_setter_new_writes (p : string) (b v : Z) (s : ctl) :
  ascii_ok (device_id s) = true -> ascii_ok p = true ->
  exists l,
    writes (trace (snd ((if negb ((0 <=? v)%Z && (v <=? b)%Z) then ret false else
                          response <- _send_command (p ++ py_str_int v) ;;
                          ret (_check_success response)) s))) =
      (writes (trace s) ++ l)%list /\
    (l = [] \/ l = [to_bytes (frame (device_id s) (p ++ py_str_int v))]).
Proof.
  intros Hd Hp. destruct (negb _).
  - exists []. rewrite app_nil_r. split; [reflexivity|left; reflexivity].
  - rewrite bind_ret_snd. apply send_new_writes; auto. apply arg_command_ascii; exact Hp.
Qed.

Lemma string_app_inv_l (a b c : string) : a ++ b = a ++ c -> b = c.
Proof. induction a as [|x a IH]; [auto|]. intros H. injection H as H. auto. Qed.

Lemma substring_app_prefix (p y : string) : substring 0 (String.length p) (p ++ y) = p.
Proof. induction p as [|x p IH]; [destruct y; reflexivity|]. cbn. rewrite IH. reflexivity. Qed.

Lemma frame_command_prefix (d p x c : string) :
  to_bytes (frame d (p ++ x)) = to_bytes (frame d c) ->
  substring 0 (String.length p) (c ++ CR) = p.
Proof.
  intros H. apply to_bytes_inj in H. unfold frame in H.
  apply (string_app_inv_l "~") in H. apply string_app_inv_l in H.
  rewrite <- H, string_app_assoc. apply substring_app_prefix.
Qed.

Lemma capture_command_prefixes (c p : string) :
  In c capture_commands -> In p ["21 "; "22 "; "62 "] -> substring 0 3 (c ++ CR) <> p.
Proof.
  intros Hc Hp. simpl in Hc.
  destruct Hp as [<-|[<-|[<-|[]]]];
    repeat (destruct Hc as [<-|Hc]; [discriminate|]); destruct Hc.
Qed.

Ltac arg_setter_no_query p b v s Hd :=
  destruct (arg_setter_new_writes p b v s Hd eq_refl) as (l & W & Hl);
  exists l; split; [exact W|];
  intros c Hc Hin; destruct Hl as [-> | ->]; [exact Hin|];
  destruct Hin as [Hin|[]];
  apply (capture_command_prefixes c p Hc); [cbn; tauto|];
  exact (frame_command_prefix _ p _ _ Hin).

(** X8: capture_config writes only read queries: on a usable port, a prefix of the 24 query frames in order, all 24 when it returns; on a port that cannot be opened it changes nothing; and no setter used by apply_config sends one of those query codes: neither a fixed setter nor set_brightness, set_contrast or set_digital_zoom, whatever their argument. *)
Theorem capture_config_frames (captured_at : string) (s : ctl) :
  ascii_ok (device_id s) = true ->
  ((is_open s = true \/ open_ok s = true) ->
   exists k, k <= 24 /\
     writes (trace (snd (capture_config captured_at s))) =
       (writes (trace s) ++
        map (fun c => to_bytes (frame (device_id s) c)) (firstn k capture_commands))%list /\
     (forall r, fst (capture_config captured_at s) = Ret r -> k = 24)) /\
  (is_open s = false -> open_ok s = false -> snd (capture_config captured_at s) = s) /\
  (forall (o : Setter.t) c, In c capture_commands -> Setter.command o <> c) /\
  (forall v, Forall (fun set : Z -> M bool =>
     exists l, writes (trace (snd (set v s))) = (writes (trace s) ++ l)%list /\
       forall c, In c capture_commands -> ~ In (to_bytes (frame (device_id s) c)) l)
     [set_brightness; set_contrast; set_digital_zoom]).
Proof.
  intros Hd. split; [|split; [|split]].
  - intros Hc. destruct (sends_capture captured_at s Hc Hd)
      as (k & r & s' & E & Hk & _ & _ & W & F).
    exists k. rewrite E. cbn [fst snd]. split; [exact Hk|]. split; [exact W|].
    intros a Ha. subst r. exact (F a eq_refl).
  - apply inert_capture.
  - intros o c Hin. simpl in Hin.
    destruct o; repeat (destruct Hin as [<-|Hin]; [discriminate|]); destruct Hin.
  - intros v. repeat apply Forall_cons; [| | |apply Forall_nil].
    + unfold set_brightness. arg_setter_no_query "21 " 10%Z v s Hd.
    + unfold set_contrast. arg_setter_no_query "22 " 10%Z v s Hd.
    + unfold set_digital_zoom. arg_setter_no_query "62 " 6%Z v s Hd.
Qed.


Lemma attempt_skipped (action : M bool) (item : string) (l : list string) (r : report) (s : ctl) :
  attempt action item (with_skipped l r) s = map_result (with_skipped l) (attempt action item r s).
Proof.
  unfold attempt, bind, ret. destruct (action s) as [[ok|e] s']; [destruct ok|]; reflexivity.
Qed.


Lemma sections_skip_parametric : Forall skip_parametric sections.
Proof.
  repeat constructor; intros cfg l r s;
    [unfold apply_source | unfold apply_display_mode | unfold apply_projection_mode
    | unfold apply_aspect_ratio | unfold apply_digital_zoom | unfold apply_brightness
    | unfold apply_contrast | unfold apply_color_temperature | unfold apply_volume_entry
    | unfold apply_audio_mute | unfold apply_av_mute].
  - destruct (cfg_source_input cfg); [apply attempt_skipped|reflexivity].
  - destruct (cfg_display_mode cfg) as [[m|]|]; [destruct (String.eqb m "")|..];
      (reflexivity || apply attempt_skipped).
  - destruct (cfg_projection_mode cfg) as [[m|]|]; [destruct (String.eqb m "")|..];
      (reflexivity || apply attempt_skipped).
  - destruct (cfg_aspect_ratio cfg) as [[m|]|]; [destruct (String.eqb m "")|..];
      (reflexivity || apply attempt_skipped).
  - destruct (cfg_digital_zoom cfg) as [[m|]|]; [destruct (String.eqb m "")|..];
      [reflexivity|destruct (zoom_lookup zoom_map m)|..]; (reflexivity || apply attempt_skipped).
  - destruct (cfg_brightness cfg) as [[v|]|]; (reflexivity || apply attempt_skipped).
  - destruct (cfg_contrast cfg) as [[v|]|]; (reflexivity || apply attempt_skipped).
  - destruct (cfg_color_temperature cfg) as [[m|]|]; [destruct (String.eqb m "")|..];
      (reflexivity || apply attempt_skipped).
  - destruct (cfg_volume cfg) as [[v|]|]; [|reflexivity..].
    unfold bind, ret. cbn [success failed skipped with_skipped].
    destruct (apply_volume v (success r, failed r) s) as [[res|e] s']; reflexivity.
  - destruct (cfg_audio_mute cfg) as [[[]|]|]; (reflexivity || apply attempt_skipped).
  - destruct (cfg_av_mute cfg) as [[[]|]|]; (reflexivity || apply attempt_skipped).
Qed.

Lemma run_sections_skipped (secs : list (config -> report -> M report)) :
  Forall skip_parametric secs ->
  forall cfg l r s,
  run_sections secs cfg (with_skipped l r) s = map_result (with_skipped l) (run_sections secs cfg r s).
Proof.
  induction secs as [|sec secs IH]; intros H cfg l r s; [reflexivity|].
  inversion H as [|x xs Hsec Hsecs]; subst.
  cbn [run_sections]. unfold bind. rewrite Hsec.
  destruct (sec cfg r s) as [[r'|e] s']; cbn [map_result]; [apply IH|]; auto.
Qed.

Lemma run_sections_without_power (secs : list (config -> report -> M report)) cfg :
  Forall (fun sec => forall r s, sec (without_power cfg) r s = sec cfg r s) secs ->
  forall r s, run_sections secs (without_power cfg) r s = run_sections secs cfg r s.
Proof.
  induction secs as [|sec secs IH]; intros H r s; [reflexivity|].
  inversion H as [|x xs Hsec Hsecs]; subst. cbn [run_sections]. unfold bind.
  rewrite Hsec. destruct (sec cfg r s) as [[r'|e] s']; [apply IH|]; auto.
Qed.

(** X9: apply_config with skip_power behaves as apply_config without it on the configuration with no power entry, except that "power.state" is added to the skipped list. *)
Theorem skip_power_only_skips (cfg : config) (s : ctl) :
  apply_config true cfg s =
    map_result (with_skipped ["power.state"]) (apply_config false (without_power cfg) s).
Proof.
  unfold apply_config, apply_power, bind, ret. cbn [cfg_power_state without_power].
  rewrite run_sections_without_power by (repeat constructor; reflexivity).
  rewrite <- run_sections_skipped by exact sections_skip_parametric.
  reflexivity.
Qed.

Lemma run_sections_idle (secs : list (config -> report -> M report)) cfg :
  Forall (fun sec => forall r s, sec cfg r s = ret r s) secs ->
  forall r s, run_sections secs cfg r s = (Ret r, s).
Proof.
  induction secs as [|sec secs IH]; intros H r s; [reflexivity|].
  inversion H as [|x xs Hsec Hsecs]; subst. cbn [run_sections]. unfold bind.
  rewrite Hsec. apply IH. exact Hsecs.
Qed.

Lemma apply_config_one (cfg : config) (pre post : list (config -> report -> M report))
    (sec : config -> report -> M report) (s : ctl) :
  sections = (pre ++ sec :: post)%list -> cfg_power_state cfg = None ->
  Forall (fun sec => forall r s, sec cfg r s = ret r s) pre ->
  Forall (fun sec => forall r s, sec cfg r s = ret r s) post ->
  apply_config false cfg s = sec cfg (mkReport [] [] []) s.
Proof.
  intros Hs Hp Hpre Hpost. unfold apply_config, apply_power. rewrite Hp, Hs. clear Hs Hp.
  unfold bind at 1, ret at 1. generalize (mkReport [] [] []) as r. intros r.
  revert r s. induction pre as [|p pre IH]; intros r s.
  - cbn [app run_sections]. unfold bind. destruct (sec cfg r s) as [[r'|e] s']; [|reflexivity].
    apply run_sections_idle. exact Hpost.
  - inversion Hpre as [|x xs Hx Hxs]; subst. cbn [app run_sections]. unfold bind.
    rewrite Hx. apply IH. exact Hxs.
Qed.

Ltac one_entry pre post :=
  apply (apply_config_one _ pre post); [reflexivity|reflexivity|repeat constructor..].

Lemma only_source_eq (v : option string) (s : ctl) :
  apply_config false (only_source v) s = apply_source (only_source v) (mkReport [] [] []) s.
Proof. one_entry (@nil (config -> report -> M report)) (tl sections). Qed.

Lemma only_display_mode_eq (m : string) (s : ctl) :
  m <> "" -> apply_config false (only_display_mode (Some m)) s =
    attempt (run_dispatch display_table (py_lower m)) ("display.mode=" ++ m) (mkReport [] [] []) s.
Proof.
  intros Hm. rewrite (apply_config_one _ (firstn 1 sections) (skipn 2 sections) apply_display_mode);
    [|reflexivity|reflexivity|repeat constructor..].
  unfold apply_display_mode. cbn [cfg_display_mode only_display_mode].
  rewrite (proj2 (String.eqb_neq m "") Hm). reflexivity.
Qed.

Lemma only_projection_mode_eq (m : string) (s : ctl) :
  m <> "" -> apply_config false (only_projection_mode (Some m)) s =
    attempt (run_dispatch projection_table m) ("display.projection_mode=" ++ m) (mkReport [] [] []) s.
Proof.
  intros Hm. rewrite (apply_config_one _ (firstn 2 sections) (skipn 3 sections) apply_projection_mode);
    [|reflexivity|reflexivity|repeat constructor..].
  unfold apply_projection_mode. cbn [cfg_projection_mode only_projection_mode].
  rewrite (proj2 (String.eqb_neq m "") Hm). reflexivity.
Qed.

Lemma only_aspect_ratio_eq (m : string) (s : ctl) :
  m <> "" -> apply_config false (only_aspect_ratio (Some m)) s =
    attempt (run_dispatch aspect_table m) ("display.aspect_ratio=" ++ m) (mkReport [] [] []) s.
Proof.
  intros Hm. rewrite (apply_config_one _ (firstn 3 sections) (skipn 4 sections) apply_aspect_ratio);
    [|reflexivity|reflexivity|repeat constructor..].
  unfold apply_aspect_ratio. cbn [cfg_aspect_ratio only_aspect_ratio].
  rewrite (proj2 (String.eqb_neq m "") Hm). reflexivity.
Qed.

Lemma only_digital_zoom_eq (m : string) (s : ctl) :
  apply_config false (only_digital_zoom (Some m)) s =
    apply_digital_zoom (only_digital_zoom (Some m)) (mkReport [] [] []) s.
Proof.
  rewrite (apply_config_one _ (firstn 4 sections) (skipn 5 sections) apply_digital_zoom);
    [reflexivity|reflexivity|reflexivity|repeat constructor..].
Qed.

Lemma only_brightness_eq (v : Z) (s : ctl) :
  apply_config false (only_brightness (Some v)) s =
    attempt (set_brightness v) ("image.brightness=" ++ py_str_int v) (mkReport [] [] []) s.
Proof.
  rewrite (apply_config_one _ (firstn 5 sections) (skipn 6 sections) apply_brightness);
    [reflexivity|reflexivity|reflexivity|repeat constructor..].
Qed.

Lemma only_contrast_eq (v : Z) (s : ctl) :
  apply_config false (only_contrast (Some v)) s =
    attempt (set_contrast v) ("image.contrast=" ++ py_str_int v) (mkReport [] [] []) s.
Proof.
  rewrite (apply_config_one _ (firstn 6 sections) (skipn 7 sections) apply_contrast);
    [reflexivity|reflexivity|reflexivity|repeat constructor..].
Qed.

Lemma only_color_temperature_eq (m : string) (s : ctl) :
  m <> "" -> apply_config false (only_color_temperature (Some m)) s =
    attempt (run_dispatch color_table m) ("image.color_temperature=" ++ m) (mkReport [] [] []) s.
Proof.
  intros Hm. rewrite (apply_config_one _ (firstn 7 sections) (skipn 8 sections) apply_color_temperature);
    [|reflexivity|reflexivity|repeat constructor..].
  unfold apply_color_temperature. cbn [cfg_color_temperature only_color_temperature].
  rewrite (proj2 (String.eqb_neq m "") Hm). reflexivity.
Qed.

Lemma only_audio_mute_eq (v : option bool) (s : ctl) :
  apply_config false (only_audio_mute v) s =
    apply_audio_mute (only_audio_mute v) (mkReport [] [] []) s.
Proof.
  rewrite (apply_config_one _ (firstn 9 sections) (skipn 10 sections) apply_audio_mute);
    [reflexivity|reflexivity|reflexivity|repeat constructor..].
Qed.

Lemma only_av_mute_eq (v : option bool) (s : ctl) :
  apply_config false (only_av_mute v) s =
    apply_av_mute (only_av_mute v) (mkReport [] [] []) s.
Proof.
  rewrite (apply_config_one _ (firstn 10 sections) [] apply_av_mute);
    [reflexivity|reflexivity|reflexivity|repeat constructor..].
Qed.

Lemma only_power_eq (v : option bool) (s : ctl) :
  apply_config false (only_power v) s = apply_power false (only_power v) (mkReport [] [] []) s.
Proof.
  unfold apply_config, bind.
  destruct (apply_power false (only_power v) (mkReport [] [] []) s) as [[r|e] s']; [|reflexivity].
  apply run_sections_idle. repeat constructor.
Qed.

Lemma attempt_setter_writes (o : Setter.t) (item : string) (r : report) (s : ctl) :
  (is_open s = true \/ open_ok s = true) -> ascii_ok (device_id s) = true ->
  writes (trace (snd (attempt (run_setter o) item r s))) =
    (writes (trace s) ++ [to_bytes (frame (device_id s) (Setter.command o))])%list.
Proof.
  intros Hc Hd. unfold attempt. rewrite (bind_ret_snd _ (fun ok => note ok item r)).
  unfold run_setter. rewrite bind_ret_snd.
  apply send_writes; [exact Hc|exact Hd|destruct o; reflexivity].
Qed.

Lemma attempt_dispatch_writes (table : list (list string * Setter.t)) (v : string)
    (o : Setter.t) (item : string) (r : report) (s : ctl) :
  dispatch table v = Some o ->
  (is_open s = true \/ open_ok s = true) -> ascii_ok (device_id s) = true ->
  writes (trace (snd (attempt (run_dispatch table v) item r s))) =
    (writes (trace s) ++ [to_bytes (frame (device_id s) (Setter.command o))])%list.
Proof. intros H. unfold run_dispatch. rewrite H. apply attempt_setter_writes. Qed.

Lemma attempt_zoom_writes (level : Z) (item : string) (r : report) (s : ctl) :
  (0 <= level <= 6)%Z ->
  (is_open s = true \/ open_ok s = true) -> ascii_ok (device_id s) = true ->
  writes (trace (snd (attempt (set_digital_zoom level) item r s))) =
    (writes (trace s) ++ [to_bytes (frame (device_id s) ("62 " ++ py_str_int level))])%list.
Proof.
  intros Hl Hc Hd. unfold attempt. rewrite (bind_ret_snd _ (fun ok => note ok item r)).
  unfold set_digital_zoom. in_range_true. rewrite bind_ret_snd.
  apply send_writes; [exact Hc|exact Hd|].
  apply (arg_command_ascii (String _ (String _ " "))); reflexivity.
Qed.

Lemma existsb_none (f : string -> bool) (keys : list string) :
  Forall (fun k => f k = false) keys -> existsb f keys = false.
Proof. induction 1 as [|k keys Hk _ IH]; [reflexivity|]. cbn [existsb]. rewrite Hk. exact IH. Qed.

Lemma dispatch_none (table : list (list string * Setter.t)) (v : string) :
  no_key_in table v -> dispatch table v = None.
Proof.
  induction table as [|[keys o] table IH]; intros H; [reflexivity|].
  inversion H as [|x l Hx Hl]; subst. cbn [dispatch]. cbn [fst] in Hx.
  rewrite (existsb_none _ _ Hx). exact (IH Hl).
Qed.

Lemma attempt_unmatched (table : list (list string * Setter.t)) (v item : string) (r : report) (s : ctl) :
  no_key_in table v -> attempt (run_dispatch table v) item r s = (Ret (note false item r), s).
Proof. intros H. unfold attempt, run_dispatch. rewrite (dispatch_none _ _ H). reflexivity. Qed.

(** X10: a label that matches no key of its table is reported as failed and nothing is sent; a missing source is reported as "source.input=None". *)
Theorem unmatched_labels_rejected (v : string) (s : ctl) :
  apply_config false (only_source None) s = (Ret (mkReport [] ["source.input=None"] []), s) /\
  (no_key_in source_table v ->
     apply_config false (only_source (Some v)) s =
       (Ret (mkReport [] ["source.input=" ++ v] []), s)) /\
  (v <> "" -> no_key_in display_table (py_lower v) ->
     apply_config false (only_display_mode (Some v)) s =
       (Ret (mkReport [] ["display.mode=" ++ v] []), s)) /\
  (v <> "" -> no_key_in projection_table v ->
     apply_config false (only_projection_mode (Some v)) s =
       (Ret (mkReport [] ["display.projection_mode=" ++ v] []), s)) /\
  (v <> "" -> no_key_in aspect_table v ->
     apply_config false (only_aspect_ratio (Some v)) s =
       (Ret (mkReport [] ["display.aspect_ratio=" ++ v] []), s)) /\
  (v <> "" -> no_key_in color_table v ->
     apply_config false (only_color_temperature (Some v)) s =
       (Ret (mkReport [] ["image.color_temperature=" ++ v] []), s)).
Proof.
  split; [rewrite only_source_eq; reflexivity|].
  split; [intros H; rewrite only_source_eq; apply attempt_unmatched; exact H|].
  split; [intros Hv H; rewrite only_display_mode_eq by exact Hv; apply attempt_unmatched; exact H|].
  split; [intros Hv H; rewrite only_projection_mode_eq by exact Hv; apply attempt_unmatched; exact H|].
  split; [intros Hv H; rewrite only_aspect_ratio_eq by exact Hv; apply attempt_unmatched; exact H|].
  intros Hv H; rewrite only_color_temperature_eq by exact Hv; apply attempt_unmatched; exact H.
Qed.

Lemma zoom_lookup_none (m : list (string * Z)) (z : string) :
  ~ In z (map fst m) -> zoom_lookup m z = None.
Proof.
  induction m as [|[k v] m IH]; intros H; [reflexivity|]. cbn [zoom_lookup].
  destruct (String.eqb_spec z k) as [->|]; [destruct H; left; reflexivity|].
  apply IH. intros H'. apply H. right. exact H'.
Qed.

(** X11: a digital-zoom label outside the zoom map is ignored without a report, and a brightness or contrast outside 0..10 is reported as failed; nothing is sent in either case. *)
Theorem rejected_levels (z : string) (v : Z) (s : ctl) :
  (~ In z (map fst zoom_map) ->
     apply_config false (only_digital_zoom (Some z)) s = (Ret (mkReport [] [] []), s)) /\
  ((v < 0 \/ 10 < v)%Z ->
     apply_config false (only_brightness (Some v)) s =
       (Ret (mkReport [] ["image.brightness=" ++ py_str_int v] []), s) /\
     apply_config false (only_contrast (Some v)) s =
       (Ret (mkReport [] ["image.contrast=" ++ py_str_int v] []), s)).
Proof.
  split.
  - intros H. rewrite only_digital_zoom_eq. unfold apply_digital_zoom.
    cbn [cfg_digital_zoom only_digital_zoom].
    destruct (String.eqb z ""); [reflexivity|]. rewrite (zoom_lookup_none _ _ H). reflexivity.
  - intros H. rewrite only_brightness_eq, only_contrast_eq.
    unfold attempt, bind, set_brightness, set_contrast. rewrite (range_false v 10 H).
    split; reflexivity.
Qed.

Ltac restore_dispatch Hc Hd :=
  match goal with
  | |- context [attempt (run_dispatch ?t ?v) ?item ?r ?s] =>
      let o := eval vm_compute in (dispatch t v) in
      match o with
      | Some ?o' =>
          rewrite (attempt_dispatch_writes t v o' item r s
                     ltac:(vm_compute; reflexivity) Hc Hd); reflexivity
      end
  end.

(** X12: the projection-mode, digital-zoom and aspect-ratio labels read by capture are written back by apply_config as the setter codes 71 (d+1), 62 d and 60 d. *)
Theorem projection_zoom_aspect_restored (d : Z) (s : ctl) :
  (is_open s = true \/ open_ok s = true) -> ascii_ok (device_id s) = true ->
  ((0 <= d <= 3)%Z -> exists label,
     get_projection_mode_dec ("Ok" ++ py_str_int d) = Ret (Some label) /\
     writes (trace (snd (apply_config false (only_projection_mode (Some label)) s))) =
       (writes (trace s) ++ [to_bytes (frame (device_id s) ("71 " ++ py_str_int (d + 1)))])%list) /\
  ((0 <= d <= 6)%Z -> exists label,
     get_digital_zoom_dec ("Ok" ++ py_str_int d) = Ret (Some label) /\
     writes (trace (snd (apply_config false (only_digital_zoom (Some label)) s))) =
       (writes (trace s) ++ [to_bytes (frame (device_id s) ("62 " ++ py_str_int d))])%list) /\
  (In d [1; 2; 3; 7]%Z -> exists label,
     get_aspect_ratio_dec ("Ok" ++ py_str_int d) = Ret (Some label) /\
     writes (trace (snd (apply_config false (only_aspect_ratio (Some label)) s))) =
       (writes (trace s) ++ [to_bytes (frame (device_id s) ("60 " ++ py_str_int d))])%list).
Proof.
  intros Hc Hd. split; [|split].
  - intros Hr. assert (d = 0 \/ d = 1 \/ d = 2 \/ d = 3)%Z as Hcase by lia.
    repeat destruct Hcase as [->|Hcase]; try subst d; eexists; (split; [cbv; reflexivity|]);
      rewrite only_projection_mode_eq by discriminate; restore_dispatch Hc Hd.
  - intros Hr. assert (d = 0 \/ d = 1 \/ d = 2 \/ d = 3 \/ d = 4 \/ d = 5 \/ d = 6)%Z
      as Hcase by lia.
    repeat destruct Hcase as [->|Hcase]; try subst d; eexists; (split; [cbv; reflexivity|]);
      rewrite only_digital_zoom_eq; unfold apply_digital_zoom;
      cbv beta iota zeta delta [cfg_digital_zoom only_digital_zoom String.eqb Ascii.eqb Bool.eqb zoom_lookup zoom_map];
      (rewrite attempt_zoom_writes by (lia || assumption); reflexivity).
  - intros Hin. cbn [In] in Hin.
    repeat destruct Hin as [<-|Hin]; [..|destruct Hin]; eexists; (split; [cbv; reflexivity|]);
      rewrite only_aspect_ratio_eq by discriminate; restore_dispatch Hc Hd.
Qed.

(** X13: a display-mode label read by capture is written back by apply_config as setter code 20 d, except that code 14 comes back as 16 and 43 as 44. *)
Theorem display_mode_restored (d : Z) (s : ctl) :
  (is_open s = true \/ open_ok s = true) -> ascii_ok (device_id s) = true ->
  In d [1; 2; 3; 4; 9; 12; 14; 21; 25; 41; 42; 43]%Z ->
  exists label,
    get_display_mode_dec ("Ok" ++ py_str_int d) = Ret (Some label) /\
    writes (trace (snd (apply_config false (only_display_mode (Some label)) s))) =
      (writes (trace s) ++
       [to_bytes (frame (device_id s)
          ("20 " ++ py_str_int (if (d =? 14)%Z then 16 else if (d =? 43)%Z then 44 else d)))])%list.
Proof.
  intros Hc Hd Hin. cbn [In] in Hin.
  repeat destruct Hin as [<-|Hin]; [..|destruct Hin]; eexists; (split; [cbv; reflexivity|]);
    rewrite only_display_mode_eq by discriminate; restore_dispatch Hc Hd.
Qed.

(** X14: colour temperature 2, 3 and 5 come back as setter codes 36 1, 36 4 and 36 3, and input source 7 and 20 as 12 1 and 12 17. *)
Theorem color_source_restored (d : Z) (s : ctl) :
  (is_open s = true \/ open_ok s = true) -> ascii_ok (device_id s) = true ->
  (In d [2; 3; 5]%Z -> exists label,
     get_color_temperature_dec ("Ok" ++ py_str_int d) = Ret (Some label) /\
     writes (trace (snd (apply_config false (only_color_temperature (Some label)) s))) =
       (writes (trace s) ++
        [to_bytes (frame (device_id s)
           ("36 " ++ py_str_int (if (d =? 2)%Z then 1 else if (d =? 3)%Z then 4 else 3)))])%list) /\
  (In d [7; 20]%Z -> exists label,
     get_input_source_dec ("Ok" ++ py_str_int d) = Ret (Some label) /\
     writes (trace (snd (apply_config false (only_source (Some label)) s))) =
       (writes (trace s) ++
        [to_bytes (frame (device_id s) ("12 " ++ py_str_int (if (d =? 7)%Z then 1 else 17)))])%list).
Proof.
  intros Hc Hd. split; intros Hin; cbn [In] in Hin.
  - repeat destruct Hin as [<-|Hin]; [..|destruct Hin]; eexists; (split; [cbv; reflexivity|]);
      rewrite only_color_temperature_eq by discriminate; restore_dispatch Hc Hd.
  - repeat destruct Hin as [<-|Hin]; [..|destruct Hin]; eexists; (split; [cbv; reflexivity|]);
      rewrite only_source_eq; unfold apply_source;
      cbn [cfg_source_input only_source py_str_opt]; restore_dispatch Hc Hd.
Qed.

(** X15: a boolean read as Ok1 or Ok0 is written back for power, audio mute and AV mute as codes 00, 03 and 02 with argument 1 or 0. *)
Theorem on_off_restored (b : bool) (s : ctl) :
  (is_open s = true \/ open_ok s = true) -> ascii_ok (device_id s) = true ->
  bool_state_dec (if b then "Ok1" else "Ok0") = Ret (Some b) /\
  writes (trace (snd (apply_config false (only_power (Some b)) s))) =
    (writes (trace s) ++ [to_bytes (frame (device_id s) ("00 " ++ if b then "1" else "0"))])%list /\
  writes (trace (snd (apply_config false (only_audio_mute (Some b)) s))) =
    (writes (trace s) ++ [to_bytes (frame (device_id s) ("03 " ++ if b then "1" else "0"))])%list /\
  writes (trace (snd (apply_config false (only_av_mute (Some b)) s))) =
    (writes (trace s) ++ [to_bytes (frame (device_id s) ("02 " ++ if b then "1" else "0"))])%list.
Proof.
  intros Hc Hd.
  rewrite only_power_eq, only_audio_mute_eq, only_av_mute_eq.
  destruct b; (split; [reflexivity|]);
    unfold apply_power, apply_audio_mute, apply_av_mute;
    cbn [cfg_power_state cfg_audio_mute cfg_av_mute only_power only_audio_mute only_av_mute];
    rewrite !attempt_setter_writes by assumption; repeat split.
Qed.

(** ** Instances of the properties on concrete ports *)

Lemma frame_layout_witness :
  (is_open (mkCtl "00" true true [] []) = true \/ open_ok (mkCtl "00" true true [] []) = true) /\
  ascii_ok "00" = true /\
  writes (trace (snd (set_brightness 5 (mkCtl "00" true true [] [])))) =
    [to_bytes (frame "00" ("21" ++ " " ++ py_str_int 5))].
Proof.
  split; [left; reflexivity|]. split; [reflexivity|].
  exact (proj1 (proj2 (proj2 (frame_layout (mkCtl "00" true true [] [])
           (or_introl eq_refl) eq_refl))) 5%Z ltac:(lia)).
Defined.

Lemma out_of_range_setters_witness :
  (11 < 0 \/ 10 < 11)%Z /\
  set_brightness 11 (mkCtl "00" true true [] []) = (Ret false, mkCtl "00" true true [] []) /\
  (7 < 0 \/ 6 < 7)%Z /\
  set_digital_zoom 7 (mkCtl "00" true true [] []) = (Ret false, mkCtl "00" true true [] []).
Proof.
  refine (conj _ (conj (proj1 (proj1 (out_of_range_setters_no_io 11 (mkCtl "00" true true [] [])) _))
            (conj _ (proj2 (out_of_range_setters_no_io 7 (mkCtl "00" true true [] [])) _))));
    lia.
Defined.

Lemma send_command_poll_loop_witness :
  (is_open (mkCtl "00" true true [to_bytes "Ok1"] []) = true \/
   open_ok (mkCtl "00" true true [to_bytes "Ok1"] []) = true) /\
  ascii_ok (frame "00" "124 1") = true /\
  fst (_send_command "124 1" (mkCtl "00" true true [to_bytes "Ok1"] [])) = Ret "Ok1".
Proof.
  split; [left; reflexivity|]. split; [reflexivity|].
  pose proof (send_command_poll_loop (mkCtl "00" true true [to_bytes "Ok1"] []) "124 1"
                (or_introl eq_refl) eq_refl) as H.
  vm_compute in H. destruct H as [H _]. exact H.
Defined.

Lemma volume_restore_steps_witness :
  fst (get_volume (mkCtl "00" true true [to_bytes "Ok3"] [])) = Ret (Some 3%Z) /\
  writes (trace (snd (apply_volume 7 ([], []) (mkCtl "00" true true [to_bytes "Ok3"] [])))) =
    (writes (trace (snd (get_volume (mkCtl "00" true true [to_bytes "Ok3"] [])))) ++
     repeat (to_bytes (frame "00" (Setter.command Setter.volume_up))) 4)%list.
Proof.
  split; [vm_compute; reflexivity|].
  exact (volume_restore_steps (mkCtl "00" true true [to_bytes "Ok3"] []) 7 3 ([], [])
           ltac:(vm_compute; reflexivity)).
Defined.

Lemma volume_result_ignores_steps_witness :
  fst (get_volume (mkCtl "00" true true [to_bytes "Ok3"] [])) = Ret (Some 3%Z) /\
  fst (apply_volume 7 ([], []) (mkCtl "00" true true [to_bytes "Ok3"] [])) =
    Ret ([volume_success_item 7 3], []).
Proof.
  split; [vm_compute; reflexivity|].
  exact (proj1 (volume_result_ignores_steps (mkCtl "00" true true [to_bytes "Ok3"] []) 7 [] [])
           3%Z ltac:(vm_compute; reflexivity)).
Defined.

Lemma parse_system_info_vs_controller_witness :
  get_system_info_dec "Ok10012320A1B229" =
    Ret (Some (mkSysinfo "On" 123 "Android Home (USB-A/SD Card)" "A1B2" (Some (unknown_label "29")))) /\
  exists p, parse_system_info "Ok10012320A1B229" = Ret (Some p) /\
    py_int (lamp_hours p) = Some 123%Z /\
    input_source p <> "Android Home (USB-A/SD Card)" /\ picture_mode p = "iDevice".
Proof.
  split; [vm_compute; reflexivity|].
  destruct (parse_system_info_vs_controller "Ok10012320A1B229"
              (mkSysinfo "On" 123 "Android Home (USB-A/SD Card)" "A1B2" (Some (unknown_label "29")))
              ltac:(vm_compute; reflexivity))
    as (p & H1 & _ & H3 & _ & _ & H6 & H7).
  assert (Hp : p = match parse_system_info "Ok10012320A1B229" with
                   | Ret (Some q) => q | _ => p end) by (rewrite H1; reflexivity).
  exists p. split; [exact H1|]. split; [exact H3|]. split.
  - apply H6. rewrite Hp. vm_compute. reflexivity.
  - apply (H7 _ eq_refl). rewrite Hp. vm_compute. reflexivity.
Defined.

Lemma parse_system_info_short_payload_witness :
  String.prefix "Ok" "Ok1001237072001" = true /\
  String.length (py_drop 2 "Ok1001237072001") = 13 /\
  exists p, parse_system_info "Ok1001237072001" = Ret (Some p) /\
    picture_mode_code p = "N/A" /\ picture_mode p = "Unknown (1)".
Proof.
  split; [reflexivity|]. split; [reflexivity|].
  destruct (parse_system_info_short_payload "Ok1001237072001" eq_refl eq_refl)
    as (p & H1 & H2 & _ & H4).
  exists p. split; [exact H1|]. split; [exact H2|]. rewrite H4. vm_compute. reflexivity.
Defined.

Lemma int_query_round_trip_witness :
  rx (mkCtl "00" true true [to_bytes ("Ok" ++ py_str_int (-7))] []) =
    [to_bytes ("Ok" ++ py_str_int (-7))] /\
  fst (query "120 1" int_dec (mkCtl "00" true true [to_bytes ("Ok" ++ py_str_int (-7))] [])) =
    Ret (Some (-7)%Z).
Proof.
  split; [reflexivity|].
  exact (proj2 (int_query_round_trip (-7)) "120 1"
           (mkCtl "00" true true [to_bytes ("Ok" ++ py_str_int (-7))] []) []
           (or_introl eq_refl) eq_refl eq_refl eq_refl).
Defined.

Lemma software_version_android_lost_witness :
  get_software_version_dec "OkC12 R34 M56" = Ret [("DDP", "12"); ("Android", ""); ("MCU", "56")] /\
  (forall v, In ("Android", v) [("DDP", "12"); ("Android", ""); ("MCU", "56")] -> v = "").
Proof.
  split; [vm_compute; reflexivity|].
  exact (software_version_android_lost "OkC12 R34 M56" _ ltac:(vm_compute; reflexivity)).
Defined.

Lemma status_send_command_frame_witness :
  ascii_ok "~0000 1" = true /\
  writes (trace (snd (send_command "~0000 1" (mkCtl "00" true true [] [])))) =
    [to_bytes (frame "00" "00 1")] /\
  fst (send_command (String (ascii_of_nat 200) "") (mkCtl "00" true true [] [])) =
    Raise UnicodeEncodeError.
Proof.
  split; [reflexivity|]. split.
  - exact (proj2 (proj1 (status_send_command_frame "~0000 1" (mkCtl "00" true true [] [])) eq_refl)
             "00" "00 1" eq_refl eq_refl).
  - exact (proj1 (proj1 (proj2 (status_send_command_frame (String (ascii_of_nat 200) "")
                                  (mkCtl "00" true true [] []))) eq_refl)).
Defined.

Lemma status_reader_vs_controller_witness :
  fst (fst (status_read_loop 10 [to_bytes "O"; []; to_bytes ("k1" ++ CR)] [])) = to_bytes "O" /\
  fst (fst (read_loop 10 [to_bytes "O"; []; to_bytes ("k1" ++ CR)] [])) = to_bytes ("Ok1" ++ CR) /\
  exists t, to_bytes ("Ok1" ++ CR) = (to_bytes "O" ++ t)%list.
Proof.
  pose proof (status_reader_vs_controller [to_bytes "O"; []; to_bytes ("k1" ++ CR)]) as H.
  vm_compute in H. destruct H as [_ [Ht _]].
  split; [vm_compute; reflexivity|]. split; [vm_compute; reflexivity|].
  vm_compute. exact Ht.
Defined.

Lemma capture_config_frames_witness :
  ascii_ok "00" = true /\
  writes (trace (snd (capture_config "t" (mkCtl "00" true true [] [])))) =
    map (fun c => to_bytes (frame "00" c)) capture_commands.
Proof.
  split; [reflexivity|].
  destruct (proj1 (capture_config_frames "t" (mkCtl "00" true true [] []) eq_refl) (or_introl eq_refl))
    as (k & _ & W & F).
  assert (E : exists r, fst (capture_config "t" (mkCtl "00" true true [] [])) = Ret r)
    by (vm_compute; eexists; reflexivity).
  destruct E as [r E].
  rewrite (F r E) in W. rewrite W. reflexivity.
Defined.

Lemma unmatched_labels_rejected_witness :
  no_key_in source_table "DVI" /\
  apply_config false (only_source (Some "DVI")) (mkCtl "00" true true [] []) =
    (Ret (mkReport [] ["source.input=DVI"] []), mkCtl "00" true true [] []) /\
  no_key_in display_table (py_lower "Movie") /\
  apply_config false (only_display_mode (Some "Movie")) (mkCtl "00" true true [] []) =
    (Ret (mkReport [] ["display.mode=Movie"] []), mkCtl "00" true true [] []).
Proof.
  assert (Hs : no_key_in source_table "DVI") by (repeat constructor).
  assert (Hd : no_key_in display_table (py_lower "Movie")) by (vm_compute; repeat constructor).
  split; [exact Hs|]. split.
  - exact (proj1 (proj2 (unmatched_labels_rejected "DVI" (mkCtl "00" true true [] []))) Hs).
  - split; [exact Hd|].
    exact (proj1 (proj2 (proj2 (unmatched_labels_rejected "Movie" (mkCtl "00" true true [] []))))
             ltac:(discriminate) Hd).
Defined.

Lemma rejected_levels_witness :
  ~ In "300%" (map fst zoom_map) /\
  apply_config false (only_digital_zoom (Some "300%")) (mkCtl "00" true true [] []) =
    (Ret (mkReport [] [] []), mkCtl "00" true true [] []) /\
  apply_config false (only_brightness (Some 11%Z)) (mkCtl "00" true true [] []) =
    (Ret (mkReport [] ["image.brightness=11"] []), mkCtl "00" true true [] []).
Proof.
  assert (Hz : ~ In "300%" (map fst zoom_map)).
  { cbn. intros H. repeat (destruct H as [H|H]; [discriminate H|]). exact H. }
  split; [exact Hz|]. split.
  - exact (proj1 (rejected_levels "300%" 11 (mkCtl "00" true true [] [])) Hz).
  - exact (proj1 (proj2 (rejected_levels "300%" 11 (mkCtl "00" true true [] [])) ltac:(lia))).
Defined.

Lemma projection_zoom_aspect_restored_witness :
  exists label,
    get_projection_mode_dec ("Ok" ++ py_str_int 2) = Ret (Some label) /\
    writes (trace (snd (apply_config false (only_projection_mode (Some label))
                          (mkCtl "00" true true [] [])))) =
      [to_bytes (frame "00" "71 3")].
Proof.
  exact (proj1 (projection_zoom_aspect_restored 2 (mkCtl "00" true true [] [])
                  (or_introl eq_refl) eq_refl) ltac:(lia)).
Defined.

Lemma display_mode_restored_witness :
  exists label,
    get_display_mode_dec ("Ok" ++ py_str_int 14) = Ret (Some label) /\
    writes (trace (snd (apply_config false (only_display_mode (Some label))
                          (mkCtl "00" true true [] [])))) =
      [to_bytes (frame "00" "20 16")].
Proof.
  exact (display_mode_restored 14 (mkCtl "00" true true [] []) (or_introl eq_refl) eq_refl
           ltac:(cbn; tauto)).
Defined.

Lemma color_source_restored_witness :
  exists label,
    get_input_source_dec ("Ok" ++ py_str_int 20) = Ret (Some label) /\
    writes (trace (snd (apply_config false (only_source (Some label))
                          (mkCtl "00" true true [] [])))) =
      [to_bytes (frame "00" "12 17")].
Proof.
  exact (proj2 (color_source_restored 20 (mkCtl "00" true true [] []) (or_introl eq_refl) eq_refl)
           ltac:(cbn; tauto)).
Defined.

Lemma on_off_restored_witness :
  bool_state_dec "Ok1" = Ret (Some true) /\
  writes (trace (snd (apply_config false (only_power (Some true)) (mkCtl "00" true true [] [])))) =
    [to_bytes (frame "00" "00 1")].
Proof.
  destruct (on_off_restored true (mkCtl "00" true true [] []) (or_introl eq_refl) eq_refl)
    as (H1 & H2 & _).
  exact (conj H1 H2).
Defined.
